(** * jitsi-meet: the device-selection popup reducer and the web [Dialog]

    A shallow embedding of

    - [react/features/device-selection]: the action type
      [SET_DEVICE_SELECTION_POPUP] and the reducer registered with
      [ReducerRegistry] for ['features/device-selection'];
    - the web [Dialog] component (a subclass of [AbstractDialog]) with its
      lifecycle methods, focus management, key handling and rendering of
      the footer buttons.

    JavaScript objects live in a heap and are passed around by reference,
    so that [===] on objects is comparison of references.  The DOM is a
    forest of element nodes, the document carries the active element and
    the list of registered [keydown] listeners. *)

From stdpp Require Import gmap strings list fin_maps pretty.

(** ** JavaScript values, objects and the heap *)

Module JS.

(** References to heap-allocated objects. *)
Definition loc := nat.

(** The values the two source files handle.  Numbers are restricted to
    integers (the only numeric literal of the sources is [13]); a symbol
    is identified by the number it got when [Symbol(description)] created
    it. *)
Inductive value :=
| VUndef
| VNull
| VBool (b : bool)
| VNum (n : Z)
| VStr (s : string)
| VSym (id : nat) (description : string)
| VRef (l : loc).
Arguments VNum n%_Z.

#[global] Instance value_eq_dec : EqDecision value.
Proof. solve_decision. Defined.

#[global] Instance value_inhabited : Inhabited value := populate VUndef.

(** [a === b]: no conversion; objects and symbols compare by identity. *)
Definition strict_eq (a b : value) : bool := bool_decide (a = b).

(** [a !== b] *)
Definition strict_neq (a b : value) : bool := negb (strict_eq a b).

(** ToBoolean, as used by [if (...)] and [||]. *)
Definition truthy (v : value) : bool :=
  match v with
  | VUndef | VNull => false
  | VBool b => b
  | VNum n => negb (n =? 0)%Z
  | VStr s => negb (bool_decide (s = ""%string))
  | VSym _ _ | VRef _ => true
  end.

(** [a || b] *)
Definition or_else (a b : value) : value := if truthy a then a else b.

Definition nullish (v : value) : bool :=
  match v with
  | VUndef | VNull => true
  | _ => false
  end.

(** A plain object: its own enumerable data properties.  Prototype
    chains, accessors and non-enumerable properties are not modelled;
    neither source file relies on them. *)
Abbreviation obj := (gmap string value).
Abbreviation heap := (gmap loc obj).

(** Evaluation either completes with a value or throws a [TypeError]
    (the only exception the modelled expressions can raise). *)
Inductive result (A : Type) :=
| Ok (a : A)
| TypeError.
Arguments Ok {A} a.
Arguments TypeError {A}.

#[global] Instance result_ret : MRet result := λ A a, Ok a.
#[global] Instance result_bind : MBind result := λ A B f m,
  match m with
  | Ok a => f a
  | TypeError => TypeError
  end.

(** The index properties of a string primitive: ["ab"] has own
    enumerable properties ["0"] and ["1"]. *)
Definition string_index_props (s : string) : obj :=
  list_to_map
    (imap (λ (i : nat) c, (pretty i, VStr (String c EmptyString)))
          (String.list_ascii_of_string s)).

(** The own enumerable properties of a value, as copied by the object
    spread [{...v}]: those of the object for a reference, the index
    properties for a string and none for the other primitives.  A
    reference that is not allocated reads as an object without
    properties. *)
Definition own_props (h : heap) (v : value) : obj :=
  match v with
  | VRef l => default ∅ (h !! l)
  | VStr s => string_index_props s
  | _ => ∅
  end.

(** [v.k]: a [TypeError] on [undefined] and [null], otherwise the
    property or [undefined] when there is none. *)
Definition get_prop (h : heap) (v : value) (k : string) : result value :=
  match v with
  | VUndef | VNull => TypeError
  | VStr s =>
      if decide (k = "length"%string)
      then Ok (VNum (Z.of_nat (String.length s)))
      else Ok (default VUndef (own_props h v !! k))
  | _ => Ok (default VUndef (own_props h v !! k))
  end.

(** Evaluating an object literal allocates a fresh object. *)
Definition alloc (h : heap) (o : obj) : heap * value :=
  let l := fresh (dom h) in (<[l := o]> h, VRef l).

(** A value is well formed in a heap when it does not dangle. *)
Definition value_wf (h : heap) (v : value) : Prop :=
  match v with
  | VRef l => l ∈ dom h
  | _ => True
  end.

(** Shallow (value) equality of two states: same own properties with
    strictly equal values. *)
Definition shallow_equal (h : heap) (a b : value) : Prop :=
  own_props h a = own_props h b.

End JS.

Import JS.

(** ** react/features/device-selection *)

Module DeviceSelection.

(** [export const SET_DEVICE_SELECTION_POPUP =
      Symbol('SET_DEVICE_SELECTION_POPUP');]
    The symbol created when the module is loaded. *)
Definition SET_DEVICE_SELECTION_POPUP : value :=
  VSym 0 "SET_DEVICE_SELECTION_POPUP".

(** The default parameter [state = {}]: an [undefined] argument is
    replaced by a freshly allocated empty object. *)
Definition default_state (h : heap) (state : value) : heap * value :=
  if decide (state = VUndef) then alloc h ∅ else (h, state).

(** The reducer registered for ['features/device-selection']:
[[
  (state = {}, action) => {
      if (action.type === SET_DEVICE_SELECTION_POPUP) {
          return { ...state, popupDialog: action.popupDialog };
      }
      return state;
  }
]] *)
Definition reducer (h : heap) (state action : value)
  : result (heap * value) :=
  let '(h0, state0) := default_state h state in
  ty ← get_prop h0 action "type";
  if strict_eq ty SET_DEVICE_SELECTION_POPUP then
    popupDialog ← get_prop h0 action "popupDialog";
    mret (alloc h0 (<["popupDialog" := popupDialog]> (own_props h0 state0)))
  else
    mret (h0, state0).

(** A store feeds the reducer one action after the other, each time with
    the state the previous call returned; an exception ends the run. *)
Fixpoint reduce_all (h : heap) (state : value) (actions : list value)
  : result (heap * value) :=
  match actions with
  | [] => Ok (h, state)
  | action :: rest =>
      match reducer h state action with
      | Ok (h', state') => reduce_all h' state' rest
      | TypeError => TypeError
      end
  end.

(** The action type read as the string of that name, as the store
    action contract of the specification writes it; kept apart from the
    source's definition for comparison. *)
Definition SET_DEVICE_SELECTION_POPUP_as_string : value :=
  VStr "SET_DEVICE_SELECTION_POPUP".

End DeviceSelection.

(** ** The part of the DOM the dialog talks to *)

Module Dom.

(** An element with its identity, its attributes and its child elements
    in document order. *)
#[warnings="-register-all"]
Inductive node :=
| Node (uid : nat) (attrs : list (string * string)) (children : list node).

Definition node_uid (n : node) : nat :=
  match n with Node u _ _ => u end.

Definition node_attrs (n : node) : list (string * string) :=
  match n with Node _ a _ => a end.

Definition node_children (n : node) : list node :=
  match n with Node _ _ c => c end.

(** [element.getAttribute(name)] *)
Fixpoint get_attribute (name : string) (attrs : list (string * string))
  : option string :=
  match attrs with
  | [] => None
  | (a, v) :: rest => if decide (a = name) then Some v else get_attribute name rest
  end.

(** The only selector the dialog uses is the attribute selector
    [[name=value]]. *)
Inductive selector :=
| AttrEquals (name val : string).

Definition matches (sel : selector) (n : node) : bool :=
  match sel with
  | AttrEquals a v => bool_decide (get_attribute a (node_attrs n) = Some v)
  end.

(** The first element, in document (pre-)order, of the tree rooted at [n]
    ([n] included) that satisfies [p]. *)
Fixpoint find_first (p : node → bool) (n : node) : option node :=
  match n with
  | Node _ _ cs =>
      if p n then Some n
      else (fix in_forest (l : list node) : option node :=
              match l with
              | [] => None
              | c :: rest =>
                  match find_first p c with
                  | Some r => Some r
                  | None => in_forest rest
                  end
              end) cs
  end.

(** The same search through a list of sibling trees. *)
Fixpoint find_in_forest (p : node → bool) (l : list node) : option node :=
  match l with
  | [] => None
  | c :: rest =>
      match find_first p c with
      | Some r => Some r
      | None => find_in_forest p rest
      end
  end.

Definition has_uid (u : nat) (n : node) : bool := bool_decide (node_uid n = u).

(** Listeners are identified by the component instance whose bound
    [_onKeyDown] they are. *)
Definition listener := nat.

(** The document: every DOM tree (attached or not), the element that has
    the focus, and the listeners registered for ['keydown']. *)
Record Document := mkDocument {
  roots : list node;
  activeElement : option nat;
  keydownListeners : list listener
}.

(** Resolving an element handle. *)
Definition element_of (doc : Document) (u : nat) : option node :=
  find_in_forest (has_uid u) (roots doc).

(** [el.contains(other)]: [other] is [el] or one of its descendants;
    [false] for [null]. *)
Definition contains (doc : Document) (el : nat) (other : option nat) : bool :=
  match element_of doc el, other with
  | Some n, Some o => bool_decide (is_Some (find_first (has_uid o) n))
  | _, _ => false
  end.

(** [el.querySelector(sel)]: the first descendant of [el] (not [el]
    itself) in document order that matches, or [null]. *)
Definition querySelector (doc : Document) (el : nat) (sel : selector)
  : option nat :=
  n ← element_of doc el;
  node_uid <$> find_in_forest (matches sel) (node_children n).

(** [el.focus()] makes the element the active element of the document. *)
Definition focus (el : nat) (doc : Document) : Document :=
  mkDocument (roots doc) (Some el) (keydownListeners doc).

(** [document.addEventListener('keydown', l)]: appended unless the same
    listener is registered already. *)
Definition addEventListener (l : listener) (doc : Document) : Document :=
  mkDocument (roots doc) (activeElement doc)
    (if bool_decide (l ∈ keydownListeners doc)
     then keydownListeners doc
     else keydownListeners doc ++ [l]).

(** Removing the registration of a listener from a listener list. *)
Fixpoint remove_registration (l : listener) (ls : list listener)
  : list listener :=
  match ls with
  | [] => []
  | x :: rest => if decide (x = l) then rest else x :: remove_registration l rest
  end.

(** [document.removeEventListener('keydown', l)] *)
Definition removeEventListener (l : listener) (doc : Document) : Document :=
  mkDocument (roots doc) (activeElement doc)
    (remove_registration l (keydownListeners doc)).

End Dom.

Import Dom.

(** ** The web [Dialog] component *)

Module Dialog.

(** [const CANCEL_BUTTON_ID = 'modal-dialog-cancel-button';] *)
Definition CANCEL_BUTTON_ID : string := "modal-dialog-cancel-button".

(** [const OK_BUTTON_ID = 'modal-dialog-ok-button';] *)
Definition OK_BUTTON_ID : string := "modal-dialog-ok-button".

(** The properties the component reads.  [okDisabled], [cancelDisabled],
    the title keys and the handlers come with [AbstractDialog]'s property
    types, [t] is the translation function injected by [translate]. *)
Record Props := mkProps {
  children : value;
  isModal : value;
  width : value;
  okDisabled : value;
  cancelDisabled : value;
  okTitleKey : value;
  cancelTitleKey : value;
  titleKey : value;
  titleString : value;
  t : value → value
}.

(** The fields of an instance: [this.props] and [this._dialogElement]. *)
Record Component := mkComponent {
  props : Props;
  _dialogElement : option nat
}.

(** The key event handed to the listener; [key] is whatever the event
    object carries under that name. *)
Record KeyEvent := mkKeyEvent {
  key : value;
  keyCode : Z
}.
Arguments mkKeyEvent key keyCode%_Z.

(** A DOM [KeyboardEvent]: its [key] attribute is a string naming the
    key, its [keyCode] the legacy numeric code. *)
Definition keyboardEvent (k : string) (code : Z) : KeyEvent :=
  mkKeyEvent (VStr k) code.

(** The event for the Enter key. *)
Definition enterKeyEvent : KeyEvent := keyboardEvent "Enter" 13%Z.

(** The argument a callback of the component is invoked with: the click
    on a button, the submission of the form, the dismissal signalled by
    the modal host. *)
Inductive event :=
| EClick
| ESubmit
| EDismiss.

(** [AbstractDialog] is not part of the component's file.  What the
    component does with it is to call the inherited [_onSubmit] and, from
    its own [_onCancel], [super._onCancel()]; each such call is recorded
    with the instance and the argument passed. *)
Inductive call :=
| AbstractDialog_onSubmit (this : nat) (arg : option event)
| AbstractDialog_onCancel (this : nat).

#[global] Instance KeyEvent_eq_dec : EqDecision KeyEvent.
Proof. solve_decision. Defined.
#[global] Instance event_eq_dec : EqDecision event.
Proof. solve_decision. Defined.
#[global] Instance call_eq_dec : EqDecision call.
Proof. solve_decision. Defined.

Definition call_this (c : call) : nat :=
  match c with
  | AbstractDialog_onSubmit i _ => i
  | AbstractDialog_onCancel i => i
  end.

(** What the component lives in: the document, the component instances
    (objects, addressed by their identity) and the calls made so far into
    [AbstractDialog]. *)
Record World := mkWorld {
  document : Document;
  instances : gmap nat Component;
  calls : list call
}.

Definition set_document (doc : Document) (w : World) : World :=
  mkWorld doc (instances w) (calls w).

Definition record_call (c : call) (w : World) : World :=
  mkWorld (document w) (instances w) (calls w ++ [c]).

(** The listeners currently registered for ['keydown']. *)
Definition listeners (w : World) : list listener :=
  keydownListeners (document w).

(** The calls made into [AbstractDialog] on behalf of one instance. *)
Definition calls_of (this : nat) (w : World) : list call :=
  filter (λ c, call_this c = this) (calls w).

(** Running a method body on the instance [this] refers to. *)
Definition with_this (this : nat) (w : World) (body : Component → World)
  : World :=
  match instances w !! this with
  | Some c => body c
  | None => w
  end.

(** [constructor(props)]: the instance starts without a dialog element;
    [_onKeyDown] and [_setDialogElement] are bound once, so the same
    function object is passed to [addEventListener] and to
    [removeEventListener]. *)
Definition constructor (this : nat) (p : Props) (w : World) : World :=
  mkWorld (document w) (<[this := mkComponent p None]> (instances w)) (calls w).

(** [_setDialogElement(element)] *)
Definition _setDialogElement (this : nat) (element : option nat) (w : World)
  : World :=
  with_this this w (λ c,
    mkWorld (document w)
      (<[this := mkComponent (props c) element]> (instances w)) (calls w)).

(** The inherited [this._onSubmit(arg)]. *)
Definition _onSubmit (this : nat) (arg : option event) (w : World) : World :=
  record_call (AbstractDialog_onSubmit this arg) w.

(** [_onCancel()]: nothing for a modal dialog, [super._onCancel()]
    otherwise. *)
Definition _onCancel (this : nat) (w : World) : World :=
  with_this this w (λ c,
    if truthy (isModal (props c)) then w
    else record_call (AbstractDialog_onCancel this) w).

(** [updateButtonFocus()] *)
Definition updateButtonFocus (this : nat) (w : World) : World :=
  with_this this w (λ c,
    match _dialogElement c with
    | Some dialogElement =>
        if contains (document w) dialogElement (activeElement (document w))
        then w
        else
          let buttonToFocus :=
            if truthy (okDisabled (props c))
            then querySelector (document w) dialogElement
                   (AttrEquals "id" CANCEL_BUTTON_ID)
            else querySelector (document w) dialogElement
                   (AttrEquals "id" OK_BUTTON_ID) in
          match buttonToFocus with
          | Some b => set_document (focus b (document w)) w
          | None => w
          end
    | None => w
    end).

(** [componentDidMount()] *)
Definition componentDidMount (this : nat) (w : World) : World :=
  let w1 := updateButtonFocus this w in
  set_document (addEventListener this (document w1)) w1.

(** [componentWillUnmount()] *)
Definition componentWillUnmount (this : nat) (w : World) : World :=
  set_document (removeEventListener this (document w)) w.

(** [componentDidUpdate(prevProps)] *)
Definition componentDidUpdate (this : nat) (prevProps : Props) (w : World)
  : World :=
  with_this this w (λ c,
    if strict_neq (okDisabled prevProps) (okDisabled (props c))
       || strict_neq (cancelDisabled prevProps) (cancelDisabled (props c))
    then updateButtonFocus this w
    else w).

(** [const enterKeyCode = 13;] *)
Definition enterKeyCode : Z := 13%Z.

(** [_onKeyDown(e)] *)
Definition _onKeyDown (this : nat) (e : KeyEvent) (w : World) : World :=
  if strict_eq (key e) (VNum enterKeyCode) then _onSubmit this None w else w.

(** *** Rendering

    The render methods only read [this.props]; they are functions of the
    instance.  The callbacks handed to child elements, [this._onCancel]
    and [this._onSubmit], are taken to run on the instance, as they do
    when [AbstractDialog]'s constructor binds them. *)

Inductive handler :=
| This_onCancel
| This_onSubmit.

(** The properties of a rendered [AKButton]. *)
Record AKButton := mkAKButton {
  appearance : string;
  form : option string;
  id : string;
  isDisabled : option value;
  onClick : handler;
  label : value
}.

(** [_renderCancelButton()]: [null] if cancelling is disabled or the
    dialog is modal. *)
Definition _renderCancelButton (c : Component) : option AKButton :=
  if truthy (or_else (cancelDisabled (props c)) (isModal (props c)))
  then None
  else Some (mkAKButton "subtle" None CANCEL_BUTTON_ID None This_onCancel
               (t (props c)
                  (or_else (cancelTitleKey (props c)) (VStr "dialog.Cancel")))).

(** [_renderOKButton()]: [null] if submitting is disabled. *)
Definition _renderOKButton (c : Component) : option AKButton :=
  if truthy (okDisabled (props c))
  then None
  else Some (mkAKButton "primary" (Some "modal-dialog-form"%string)
               OK_BUTTON_ID (Some (okDisabled (props c))) This_onSubmit
               (t (props c)
                  (or_else (okTitleKey (props c)) (VStr "dialog.Ok")))).

(** [_renderFooter()]: the children of the button group, in order. *)
Record Footer := mkFooter {
  footer_className : string;
  buttonGroup : list (option AKButton)
}.

Definition _renderFooter (c : Component) : Footer :=
  mkFooter "modal-dialog-footer" [_renderCancelButton c; _renderOKButton c].

(** [_renderHeader()]: the text of the heading. *)
Definition _renderHeader (c : Component) : value :=
  or_else (titleString (props c)) (t (props c) (titleKey (props c))).

(** [render()]: the properties of the [ModalDialog] and of the form in
    it. *)
Record Rendered := mkRendered {
  footer : Footer;
  header : value;
  isOpen : bool;
  onDialogDismissed : handler;
  dialog_width : value;
  form_className : string;
  form_id : string;
  form_onSubmit : handler;
  form_children : value
}.

Definition render (c : Component) : Rendered :=
  mkRendered (_renderFooter c) (_renderHeader c) true This_onCancel
    (or_else (width (props c)) (VStr "medium"))
    "modal-dialog-form" "modal-dialog-form" This_onSubmit
    (children (props c)).

(** *** The environment driving the component *)

(** Calling a callback of instance [this] with an event. *)
Definition invoke (this : nat) (hd : handler) (arg : event) (w : World)
  : World :=
  match hd with
  | This_onCancel => _onCancel this w
  | This_onSubmit => _onSubmit this (Some arg) w
  end.

(** Activating the confirm control: the [onClick] of the OK button, when
    it is rendered. *)
Definition clickOK (this : nat) (w : World) : World :=
  with_this this w (λ c,
    match _renderOKButton c with
    | Some b => invoke this (onClick b) EClick w
    | None => w
    end).

(** Activating the cancel control, when it is rendered. *)
Definition clickCancel (this : nat) (w : World) : World :=
  with_this this w (λ c,
    match _renderCancelButton c with
    | Some b => invoke this (onClick b) EClick w
    | None => w
    end).

(** The modal host signals a dismissal (click on the blanket, Escape). *)
Definition dismiss (this : nat) (w : World) : World :=
  with_this this w (λ c, invoke this (onDialogDismissed (render c)) EDismiss w).

(** The document dispatches a ['keydown'] event: every registered
    listener runs, in the order of registration. *)
Definition dispatchKeyDown (e : KeyEvent) (w : World) : World :=
  fold_left (λ w' l, _onKeyDown l e w') (keydownListeners (document w)) w.

(** What React, the browser and the user do to the component. *)
Inductive step :=
| Construct (this : nat) (p : Props)
| AttachRef (this : nat) (element : option nat)
| DidMount (this : nat)
| ReceiveProps (this : nat) (p : Props)
| WillUnmount (this : nat)
| DomChange (trees : list node) (active : option nat)
| KeyDown (e : KeyEvent)
| ClickOK (this : nat)
| ClickCancel (this : nat)
| Dismiss (this : nat).

(** New properties: React replaces [this.props] and then calls
    [componentDidUpdate] with the previous ones. *)
Definition receiveProps (this : nat) (p : Props) (w : World) : World :=
  with_this this w (λ c,
    componentDidUpdate this (props c)
      (mkWorld (document w)
         (<[this := mkComponent p (_dialogElement c)]> (instances w))
         (calls w))).

Definition exec (s : step) (w : World) : World :=
  match s with
  | Construct this p => constructor this p w
  | AttachRef this el => _setDialogElement this el w
  | DidMount this => componentDidMount this w
  | ReceiveProps this p => receiveProps this p w
  | WillUnmount this => componentWillUnmount this w
  | DomChange trees active =>
      set_document (mkDocument trees active (keydownListeners (document w))) w
  | KeyDown e => dispatchKeyDown e w
  | ClickOK this => clickOK this w
  | ClickCancel this => clickCancel this w
  | Dismiss this => dismiss this w
  end.

Definition run (ss : list step) (w : World) : World :=
  fold_left (λ w' s, exec s w') ss w.

(** Is this step the mounting of instance [this]? *)
Definition mounts (this : nat) (s : step) : bool :=
  match s with
  | DidMount i => bool_decide (i = this)
  | _ => false
  end.

End Dialog.

(** ** Concrete heaps, documents and worlds used to exercise the model *)

Module Examples.

Import DeviceSelection.

(** A state with an unrelated field, at reference 0. *)
Definition state_obj : obj := {[ "other" := VNum 7 ]}.

(** The popup handle, at reference 2. *)
Definition popup_obj : obj := {[ "popup" := VStr "window" ]}.

(** [{ type: SET_DEVICE_SELECTION_POPUP, popupDialog: <ref 2> }], at
    reference 1. *)
Definition set_action_obj : obj :=
  <["type" := SET_DEVICE_SELECTION_POPUP]> {[ "popupDialog" := VRef 2 ]}.

(** [{ type: 'SET_DEVICE_SELECTION_POPUP', popupDialog: <ref 2> }] with
    the type given as a string, at reference 3. *)
Definition string_action_obj : obj :=
  <["type" := VStr "SET_DEVICE_SELECTION_POPUP"]> {[ "popupDialog" := VRef 2 ]}.

(** [{ popupDialog: <ref 2> }], an action without a type, at reference 4. *)
Definition untyped_action_obj : obj := {[ "popupDialog" := VRef 2 ]}.

Definition heap0 : heap :=
  <[0 := state_obj]> (<[1 := set_action_obj]> (<[2 := popup_obj]>
  (<[3 := string_action_obj]> (<[4 := untyped_action_obj]> ∅)))).

(** [{ type: SET_DEVICE_SELECTION_POPUP }], a set action that carries no
    popup, at reference 5, and a set action carrying the number 1 at
    reference 6. *)
Definition clearing_action_obj : obj :=
  {[ "type" := SET_DEVICE_SELECTION_POPUP ]}.

Definition second_action_obj : obj :=
  <["type" := SET_DEVICE_SELECTION_POPUP]> {[ "popupDialog" := VNum 1 ]}.

Definition heap1 : heap :=
  <[5 := clearing_action_obj]> (<[6 := second_action_obj]> heap0).

(** The DOM of a mounted dialog,
[[
    <body 0>
      <a 9/>
      <div 1>
        <input 5/>
        <footer 2> <button 3 id=cancel/> <button 4 id=ok/> </footer>
      </div>
    </body>
]] *)
Definition cancel_button : node :=
  Node 3 [("id"%string, Dialog.CANCEL_BUTTON_ID)] [].

Definition ok_button : node :=
  Node 4 [("id"%string, Dialog.OK_BUTTON_ID)] [].

Definition dialog_div : node :=
  Node 1 []
    [Node 5 [("type", "text")%string] [];
     Node 2 [("class", "modal-dialog-footer")%string]
       [cancel_button; ok_button]].

Definition body : node := Node 0 [] [Node 9 [] []; dialog_div].

(** Properties of a dialog with both actions enabled. *)
Definition plain_props : Dialog.Props :=
  Dialog.mkProps VUndef (VBool false) VUndef (VBool false) (VBool false)
    VUndef VUndef (VStr "dialog.title") VUndef (λ k, k).

(** The same, modal. *)
Definition modal_props : Dialog.Props :=
  Dialog.mkProps VUndef (VBool true) VUndef (VBool false) (VBool false)
    VUndef VUndef (VStr "dialog.title") VUndef (λ k, k).

(** The same, with the confirm action disabled. *)
Definition ok_disabled_props : Dialog.Props :=
  Dialog.mkProps VUndef (VBool false) VUndef (VBool true) (VBool false)
    VUndef VUndef (VStr "dialog.title") VUndef (λ k, k).

(** Instance 7 rendered into [dialog_div], before [componentDidMount];
    the focus is on the link outside the dialog. *)
Definition rendered_world (p : Dialog.Props) (active : option nat)
  : Dialog.World :=
  Dialog.mkWorld (mkDocument [body] active [])
    {[ 7 := Dialog.mkComponent p (Some 1) ]} [].

(** The same after [componentDidMount]. *)
Definition mounted_world : Dialog.World :=
  Dialog.componentDidMount 7 (rendered_world plain_props (Some 9)).

(** A key event whose [key] is the number 13 (no browser produces it). *)
Definition numeric_key_event : Dialog.KeyEvent :=
  Dialog.mkKeyEvent (VNum 13) 13.

End Examples.

(** ** Properties of the reducer *)

Module DeviceSelectionSpec.

Import DeviceSelection Examples.

Lemma own_props_alloc_empty (h : heap) (v : value) :
  own_props (alloc h ∅).1 v = own_props h v.
Proof.
  destruct v as [| | | | |? ?|l]; try reflexivity.
  simpl. destruct (decide (fresh (dom h) = l)) as [<-|Hne].
  - rewrite lookup_insert_eq. simpl.
    assert (h !! fresh (dom h) = None) as ->; [|done].
    apply not_elem_of_dom, is_fresh.
  - by rewrite lookup_insert_ne.
Qed.

Lemma get_prop_alloc_empty (h : heap) (v : value) (k : string) :
  get_prop (alloc h ∅).1 v k = get_prop h v k.
Proof.
  destruct v as [| | | | s |? ?|l]; try reflexivity.
  unfold get_prop. by rewrite own_props_alloc_empty.
Qed.

Lemma own_props_alloc_wf (h : heap) (o : obj) (v : value) :
  value_wf h v → own_props (alloc h o).1 v = own_props h v.
Proof.
  destruct v as [| | | | |? ?|l]; try reflexivity.
  simpl. intros Hl. rewrite lookup_insert_ne; [done|].
  intros <-. by apply (is_fresh (dom h)).
Qed.

Lemma get_prop_alloc_wf (h : heap) (o : obj) (v : value) (k : string) :
  value_wf h v → get_prop (alloc h o).1 v k = get_prop h v k.
Proof.
  intros Hwf. destruct v as [| | | | s |? ?|l]; try reflexivity.
  unfold get_prop. by rewrite own_props_alloc_wf.
Qed.

Lemma own_props_alloc_new (h : heap) (o : obj) :
  own_props (alloc h o).1 (alloc h o).2 = o.
Proof. simpl. by rewrite lookup_insert_eq. Qed.


Lemma value_wf_alloc (h : heap) (o : obj) (v : value) :
  value_wf h v → value_wf (alloc h o).1 v.
Proof.
  destruct v; simpl; try done. rewrite dom_insert_L. set_solver.
Qed.

(** Every property of a string primitive is itself a string. *)
Lemma string_index_props_str (s k : string) (v : value) :
  string_index_props s !! k = Some v → ∃ c, v = VStr c.
Proof.
  unfold string_index_props. intros H. apply elem_of_list_to_map_2 in H.
  apply elem_of_lookup_imap in H as (i & c & Heq & _).
  injection Heq as _ ->. eauto.
Qed.

(** An action whose [type] is a symbol is an allocated object. *)
Lemma symbol_typed_wf (h : heap) (a : value) (n : nat) (d : string) :
  get_prop h a "type" = Ok (VSym n d) → value_wf h a.
Proof.
  destruct a as [| | | | |? ?|l]; simpl; try done.
  intros [= H]. apply elem_of_dom.
  destruct (h !! l) as [o|]; [eauto|]. simpl in H. by rewrite lookup_empty in H.
Qed.

(** The default parameter changes neither what the action reads as nor
    the properties of the state. *)
Lemma get_prop_default_state (h : heap) (s a : value) (k : string) :
  get_prop (default_state h s).1 a k = get_prop h a k.
Proof.
  unfold default_state. case_decide; [|done]. apply get_prop_alloc_empty.
Qed.

Lemma own_props_default_state (h : heap) (s : value) :
  own_props (default_state h s).1 (default_state h s).2 = own_props h s.
Proof.
  unfold default_state. case_decide as Hs; [|done].
  rewrite own_props_alloc_new. by subst s.
Qed.

Lemma default_state_present (h : heap) (s : value) :
  s ≠ VUndef → default_state h s = (h, s).
Proof. intros Hs. unfold default_state. by case_decide. Qed.

Lemma reducer_eq (h : heap) (s a : value) :
  reducer h s a =
    (ty ← get_prop h a "type";
     if strict_eq ty SET_DEVICE_SELECTION_POPUP then
       popupDialog ← get_prop h a "popupDialog";
       mret (alloc (default_state h s).1
               (<["popupDialog" := popupDialog]> (own_props h s)))
     else mret (default_state h s)).
Proof.
  rewrite <- (own_props_default_state h s).
  rewrite <- !(get_prop_default_state h s a).
  unfold reducer. by destruct (default_state h s).
Qed.

(** The three ways the reducer can go. *)
Lemma reducer_throws (h : heap) (s a : value) :
  nullish a = true → reducer h s a = TypeError.
Proof. intros Ha. rewrite reducer_eq. by destruct a. Qed.

Lemma reducer_other (h : heap) (s a ty : value) :
  get_prop h a "type" = Ok ty → ty ≠ SET_DEVICE_SELECTION_POPUP →
  reducer h s a = Ok (default_state h s).
Proof.
  intros Hty Hne. rewrite reducer_eq, Hty. simpl.
  unfold strict_eq. by rewrite bool_decide_eq_false_2.
Qed.

Lemma reducer_set (h : heap) (s a r : value) :
  get_prop h a "type" = Ok SET_DEVICE_SELECTION_POPUP →
  get_prop h a "popupDialog" = Ok r →
  reducer h s a =
    Ok (alloc (default_state h s).1
          (<["popupDialog" := r]> (own_props h s))).
Proof. intros Hty Hr. rewrite reducer_eq, Hty. simpl. by rewrite Hr. Qed.

Lemma get_prop_ok (h : heap) (a : value) (k : string) :
  nullish a = false → ∃ r, get_prop h a k = Ok r.
Proof.
  intros Ha. destruct a; try done; simpl; eauto.
  case_decide; eauto.
Qed.

Lemma get_prop_not_nullish (h : heap) (a v : value) (k : string) :
  get_prop h a k = Ok v → nullish a = false.
Proof. by destruct a. Qed.

Lemma value_wf_default_state (h : heap) (s v : value) :
  value_wf h v → value_wf (default_state h s).1 v.
Proof.
  unfold default_state. case_decide; [|done]. apply value_wf_alloc.
Qed.

Lemma dom_default_state (h : heap) (s : value) :
  dom h ⊆ dom ((default_state h s).1).
Proof.
  unfold default_state. case_decide; [|done].
  simpl. rewrite dom_insert_L. set_solver.
Qed.

(** What the object returned for a set-popup action holds. *)
Lemma reducer_set_result (h : heap) (s a r : value) :
  get_prop h a "type" = Ok SET_DEVICE_SELECTION_POPUP →
  get_prop h a "popupDialog" = Ok r →
  ∃ h' s',
    reducer h s a = Ok (h', s')
    ∧ get_prop h' s' "popupDialog" = Ok r
    ∧ own_props h' s' = <["popupDialog" := r]> (own_props h s).
Proof.
  intros Hty Hr. rewrite (reducer_set h s a r Hty Hr).
  set (o := <["popupDialog" := r]> (own_props h s)).
  exists (alloc (default_state h s).1 o).1, (alloc (default_state h s).1 o).2.
  split; [reflexivity|].
  pose proof (own_props_alloc_new (default_state h s).1 o) as Hnew.
  split; [|exact Hnew].
  change (Ok (default VUndef
                (own_props (alloc (default_state h s).1 o).1
                   (alloc (default_state h s).1 o).2 !! "popupDialog"))
          = Ok r).
  rewrite Hnew. unfold o. by rewrite lookup_insert_eq.
Qed.

(** C2: for every (present) state [s] and every action whose [type] is not
    [SET_DEVICE_SELECTION_POPUP], the reducer returns [s] itself, in an
    unchanged heap: the result is reference-equal to [s]. *)
Theorem reducer_other_action_identity (h : heap) (s a ty : value) :
  s ≠ VUndef →
  get_prop h a "type" = Ok ty →
  ty ≠ SET_DEVICE_SELECTION_POPUP →
  ∃ s', reducer h s a = Ok (h, s') ∧ strict_eq s' s = true.
Proof.
  intros Hs Hty Hne. exists s. split.
  - rewrite (reducer_other h s a ty Hty Hne). by rewrite default_state_present.
  - unfold strict_eq. by rewrite bool_decide_eq_true_2.
Qed.

Lemma reducer_other_action_identity_witness :
  VRef 0 ≠ VUndef ∧
  get_prop heap0 (VRef 3) "type" = Ok (VStr "SET_DEVICE_SELECTION_POPUP") ∧
  VStr "SET_DEVICE_SELECTION_POPUP" ≠ SET_DEVICE_SELECTION_POPUP ∧
  ∃ s', reducer heap0 (VRef 0) (VRef 3) = Ok (heap0, s')
        ∧ strict_eq s' (VRef 0) = true.
Proof.
  split; [done|]. split; [vm_compute; reflexivity|]. split; [done|].
  apply (reducer_other_action_identity heap0 (VRef 0) (VRef 3)
           (VStr "SET_DEVICE_SELECTION_POPUP")).
  - done.
  - vm_compute; reflexivity.
  - done.
Defined.

(** C3: reducing any state [s] with a set-popup action that carries [r]
    yields a state whose [popupDialog] is [r]; every other field of the
    result is the corresponding field of [s] (the same value, hence the
    same reference), present in the one exactly when present in the
    other. *)
Theorem reducer_set_popup_frame (h : heap) (s a r : value) :
  get_prop h a "type" = Ok SET_DEVICE_SELECTION_POPUP →
  get_prop h a "popupDialog" = Ok r →
  ∃ h' s',
    reducer h s a = Ok (h', s')
    ∧ get_prop h' s' "popupDialog" = Ok r
    ∧ ∀ k : string, k ≠ "popupDialog"%string →
        own_props h' s' !! k = own_props h s !! k.
Proof.
  intros Hty Hr.
  destruct (reducer_set_result h s a r Hty Hr) as (h' & s' & Hred & Hpd & Hobj).
  exists h', s'. split; [done|]. split; [done|].
  intros k Hk. rewrite Hobj. by rewrite lookup_insert_ne.
Qed.

Lemma reducer_set_popup_frame_witness :
  get_prop heap0 (VRef 1) "type" = Ok SET_DEVICE_SELECTION_POPUP ∧
  get_prop heap0 (VRef 1) "popupDialog" = Ok (VRef 2) ∧
  ∃ h' s',
    reducer heap0 (VRef 0) (VRef 1) = Ok (h', s')
    ∧ get_prop h' s' "popupDialog" = Ok (VRef 2)
    ∧ ∀ k : string, k ≠ "popupDialog"%string →
        own_props h' s' !! k = own_props heap0 (VRef 0) !! k.
Proof.
  split; [vm_compute; reflexivity|]. split; [vm_compute; reflexivity|].
  apply (reducer_set_popup_frame heap0 (VRef 0) (VRef 1) (VRef 2));
    vm_compute; reflexivity.
Defined.

(** C8: on every action that is an object (anything but [undefined] and
    [null]) the reducer returns a state and does not throw, whatever the
    input state; an absent state is reduced as a freshly allocated empty
    object; an action without [type] takes the identity branch, which
    returns the (defaulted) state, i.e. [s] itself in the unchanged heap
    when [s] is present. *)
Theorem reducer_total (h : heap) (s a : value) :
  nullish a = false →
  (∃ h' s', reducer h s a = Ok (h', s'))
  ∧ (reducer h VUndef a = reducer (alloc h ∅).1 (alloc h ∅).2 a
     ∧ own_props (alloc h ∅).1 (alloc h ∅).2 = ∅)
  ∧ (own_props h a !! "type" = None →
     reducer h s a = Ok (default_state h s)
     ∧ (s ≠ VUndef → reducer h s a = Ok (h, s))).
Proof.
  intros Ha. split; [|split].
  - destruct (get_prop_ok h a "type" Ha) as [ty Hty].
    destruct (get_prop_ok h a "popupDialog" Ha) as [r Hr].
    destruct (decide (ty = SET_DEVICE_SELECTION_POPUP)) as [->|Hne].
    + rewrite (reducer_set h s a r Hty Hr). eauto.
    + rewrite (reducer_other h s a ty Hty Hne).
      destruct (default_state h s); eauto.
  - split; [|apply own_props_alloc_new]. reflexivity.
  - intros Hnone.
    assert (get_prop h a "type" = Ok VUndef) as Hty.
    { destruct a; try done; simpl in *; by rewrite Hnone. }
    assert (reducer h s a = Ok (default_state h s)) as Hred
      by (by apply (reducer_other h s a VUndef)).
    split; [done|]. intros Hs. by rewrite Hred, default_state_present.
Qed.

Lemma reducer_total_witness :
  nullish (VRef 4) = false
  ∧ (∃ h' s', reducer heap0 (VRef 0) (VRef 4) = Ok (h', s'))
  ∧ (reducer heap0 VUndef (VRef 4)
       = reducer (alloc heap0 ∅).1 (alloc heap0 ∅).2 (VRef 4)
     ∧ own_props (alloc heap0 ∅).1 (alloc heap0 ∅).2 = ∅)
  ∧ (own_props heap0 (VRef 4) !! "type" = None →
     reducer heap0 (VRef 0) (VRef 4) = Ok (default_state heap0 (VRef 0))
     ∧ (VRef 0 ≠ VUndef →
        reducer heap0 (VRef 0) (VRef 4) = Ok (heap0, VRef 0))).
Proof.
  split; [reflexivity|].
  apply (reducer_total heap0 (VRef 0) (VRef 4)). reflexivity.
Defined.

(** C9 (as stated, refuted): an action whose [type] is the string
    ['SET_DEVICE_SELECTION_POPUP'] and which carries a popup reference is
    not consumed: the reducer returns the very same state in the same
    heap, and that state still has no [popupDialog]. *)
Lemma string_typed_action_is_ignored :
  get_prop heap0 (VRef 3) "type" = Ok SET_DEVICE_SELECTION_POPUP_as_string
  ∧ get_prop heap0 (VRef 3) "popupDialog" = Ok (VRef 2)
  ∧ reducer heap0 (VRef 0) (VRef 3) = Ok (heap0, VRef 0)
  ∧ get_prop heap0 (VRef 0) "popupDialog" = Ok VUndef.
Proof. repeat split; vm_compute; reflexivity. Qed.

(** C9 (amended): the action type is the symbol
    [Symbol('SET_DEVICE_SELECTION_POPUP')], which is not the string of
    that name.  An action whose [type] is that symbol triggers the update
    of [popupDialog] with the reference the action carries; with any other
    [type], the string included, the reducer returns the (defaulted) state
    as it is. *)
Theorem reducer_consumes_the_symbol_only (h : heap) (s a ty : value) :
  get_prop h a "type" = Ok ty →
  SET_DEVICE_SELECTION_POPUP ≠ SET_DEVICE_SELECTION_POPUP_as_string
  ∧ (ty = SET_DEVICE_SELECTION_POPUP →
     ∃ r h' s',
       get_prop h a "popupDialog" = Ok r
       ∧ reducer h s a = Ok (h', s')
       ∧ get_prop h' s' "popupDialog" = Ok r)
  ∧ (ty ≠ SET_DEVICE_SELECTION_POPUP →
     reducer h s a = Ok (default_state h s)).
Proof.
  intros Hty. split; [done|]. split.
  - intros ->.
    destruct (get_prop_ok h a "popupDialog"
                (get_prop_not_nullish h a _ _ Hty)) as [r Hr].
    destruct (reducer_set_result h s a r Hty Hr) as (h' & s' & ? & ? & _).
    by exists r, h', s'.
  - intros Hne. by apply (reducer_other h s a ty).
Qed.

Lemma reducer_consumes_the_symbol_only_witness :
  get_prop heap0 (VRef 1) "type" = Ok SET_DEVICE_SELECTION_POPUP
  ∧ SET_DEVICE_SELECTION_POPUP ≠ SET_DEVICE_SELECTION_POPUP_as_string
  ∧ (SET_DEVICE_SELECTION_POPUP = SET_DEVICE_SELECTION_POPUP →
     ∃ r h' s',
       get_prop heap0 (VRef 1) "popupDialog" = Ok r
       ∧ reducer heap0 (VRef 0) (VRef 1) = Ok (h', s')
       ∧ get_prop h' s' "popupDialog" = Ok r)
  ∧ (SET_DEVICE_SELECTION_POPUP ≠ SET_DEVICE_SELECTION_POPUP →
     reducer heap0 (VRef 0) (VRef 1) = Ok (default_state heap0 (VRef 0))).
Proof.
  split; [vm_compute; reflexivity|].
  apply (reducer_consumes_the_symbol_only heap0 (VRef 0) (VRef 1)
           SET_DEVICE_SELECTION_POPUP).
  vm_compute; reflexivity.
Defined.

(** C10: for a state [s] that does not dangle and a set-popup action, the
    reducer returns a reference [l1] that was not allocated before, hence
    distinct from [s], whatever [popupDialog] the action carries; reducing
    the result with the same action again returns yet another fresh
    reference [l2], to an object with the same properties. *)
Theorem reducer_set_popup_allocates (h : heap) (s a : value) :
  value_wf h s →
  get_prop h a "type" = Ok SET_DEVICE_SELECTION_POPUP →
  ∃ h1 l1 h2 l2,
    reducer h s a = Ok (h1, VRef l1)
    ∧ (l1 ∉ dom h)
    ∧ strict_eq (VRef l1) s = false
    ∧ reducer h1 (VRef l1) a = Ok (h2, VRef l2)
    ∧ (l2 ∉ dom h1)
    ∧ strict_eq (VRef l2) (VRef l1) = false
    ∧ shallow_equal h2 (VRef l1) (VRef l2).
Proof.
  intros Hs Hty.
  destruct (get_prop_ok h a "popupDialog"
              (get_prop_not_nullish h a _ _ Hty)) as [r Hr].
  pose proof (symbol_typed_wf h a _ _ Hty) as Ha.
  set (h0 := (default_state h s).1).
  set (o := <["popupDialog" := r]> (own_props h s)).
  set (l1 := fresh (dom h0)).
  set (h1 := <[l1 := o]> h0).
  set (l2 := fresh (dom h1)).
  assert (l1 ∉ dom h0) as Hl1 by apply is_fresh.
  assert (l2 ∉ dom h1) as Hl2 by apply is_fresh.
  assert (l1 ∈ dom h1) as Hl1in
    by (unfold h1; rewrite dom_insert_L; set_solver).
  assert (l1 ∉ dom h) as Hl1h
    by (intros Hin; apply Hl1; by apply (dom_default_state h s)).
  assert (value_wf h1 a) as Ha1
    by (apply (value_wf_alloc h0 o), value_wf_default_state, Ha).
  assert (∀ k, get_prop h1 a k = get_prop h a k) as Hget.
  { intros k. change (get_prop (alloc h0 o).1 a k = get_prop h a k).
    rewrite (get_prop_alloc_wf h0 o a k (value_wf_default_state h s a Ha)).
    apply get_prop_default_state. }
  assert (own_props h1 (VRef l1) = o) as Ho1
    by apply (own_props_alloc_new h0 o).
  exists h1, l1, (<[l2 := o]> h1), l2.
  split; [exact (reducer_set h s a r Hty Hr)|].
  split; [done|]. split.
  { unfold strict_eq. apply bool_decide_eq_false_2.
    intros Heq. rewrite <- Heq in Hs. by apply Hl1h. }
  split.
  { rewrite (reducer_set h1 (VRef l1) a r); [|by rewrite Hget..].
    rewrite default_state_present by done.
    rewrite Ho1. unfold o at 1. rewrite insert_insert_eq. reflexivity. }
  split; [done|]. split.
  { unfold strict_eq. apply bool_decide_eq_false_2.
    intros [= Heq]. apply Hl2. by rewrite Heq. }
  unfold shallow_equal.
  change (own_props (alloc h1 o).1 (VRef l1)
          = own_props (alloc h1 o).1 (alloc h1 o).2).
  rewrite (own_props_alloc_new h1 o).
  rewrite (own_props_alloc_wf h1 o (VRef l1)); done.
Qed.

Lemma reducer_set_popup_allocates_witness :
  value_wf heap0 (VRef 0)
  ∧ get_prop heap0 (VRef 1) "type" = Ok SET_DEVICE_SELECTION_POPUP
  ∧ ∃ h1 l1 h2 l2,
      reducer heap0 (VRef 0) (VRef 1) = Ok (h1, VRef l1)
      ∧ (l1 ∉ dom heap0)
      ∧ strict_eq (VRef l1) (VRef 0) = false
      ∧ reducer h1 (VRef l1) (VRef 1) = Ok (h2, VRef l2)
      ∧ (l2 ∉ dom h1)
      ∧ strict_eq (VRef l2) (VRef l1) = false
      ∧ shallow_equal h2 (VRef l1) (VRef l2).
Proof.
  assert (value_wf heap0 (VRef 0)) as Hwf by (vm_compute; set_solver).
  split; [exact Hwf|]. split; [vm_compute; reflexivity|].
  apply (reducer_set_popup_allocates heap0 (VRef 0) (VRef 1) Hwf).
  vm_compute; reflexivity.
Defined.

End DeviceSelectionSpec.

(** ** Properties of the dialog *)

Module DialogSpec.

Import Dialog Examples.

(** *** How the methods touch the world *)

Lemma with_this_ind (P : World → Prop) (this : nat) (w : World)
    (body : Component → World) :
  P w → (∀ c, instances w !! this = Some c → P (body c)) →
  P (with_this this w body).
Proof.
  intros Hw Hbody. unfold with_this.
  destruct (instances w !! this) as [c|] eqn:Hc; auto.
Qed.

Lemma updateButtonFocus_listeners (this : nat) (w : World) :
  listeners (updateButtonFocus this w) = listeners w.
Proof.
  unfold updateButtonFocus.
  apply (with_this_ind (λ w', listeners w' = listeners w)); [done|].
  intros c _. destruct (_dialogElement c) as [d|]; [|done].
  destruct (contains _ _ _); [done|].
  by destruct (if truthy _ then _ else _).
Qed.

Lemma updateButtonFocus_calls (this : nat) (w : World) :
  calls (updateButtonFocus this w) = calls w.
Proof.
  unfold updateButtonFocus.
  apply (with_this_ind (λ w', calls w' = calls w)); [done|].
  intros c _. destruct (_dialogElement c) as [d|]; [|done].
  destruct (contains _ _ _); [done|].
  by destruct (if truthy _ then _ else _).
Qed.

Lemma onKeyDown_document (l : nat) (e : KeyEvent) (w : World) :
  document (_onKeyDown l e w) = document w.
Proof. unfold _onKeyDown. by destruct (strict_eq _ _). Qed.

Lemma onKeyDown_calls_of (this l : nat) (e : KeyEvent) (w : World) :
  l ≠ this → calls_of this (_onKeyDown l e w) = calls_of this w.
Proof.
  intros Hne. unfold _onKeyDown. destruct (strict_eq _ _); [|done].
  unfold calls_of, _onSubmit, record_call. simpl.
  rewrite filter_app, filter_cons_False, filter_nil by done.
  by rewrite app_nil_r.
Qed.

Lemma dispatch_document (e : KeyEvent) (ls : list nat) (w : World) :
  document (fold_left (λ w' l, _onKeyDown l e w') ls w) = document w.
Proof.
  revert w. induction ls as [|l ls IH]; intros w; [done|].
  simpl. rewrite IH. apply onKeyDown_document.
Qed.

Lemma dispatch_calls_of (this : nat) (e : KeyEvent) (ls : list nat)
    (w : World) :
  this ∉ ls →
  calls_of this (fold_left (λ w' l, _onKeyDown l e w') ls w)
  = calls_of this w.
Proof.
  revert w. induction ls as [|l ls IH]; intros w Hnotin; [done|].
  apply not_elem_of_cons in Hnotin as [Hne Hnotin].
  simpl. rewrite IH by done. by apply onKeyDown_calls_of.
Qed.

(** A DOM keyboard event, whose [key] is a string, never passes the test
    [e.key === enterKeyCode]. *)
Lemma onKeyDown_keyboardEvent (this : nat) (k : string) (code : Z)
    (w : World) :
  _onKeyDown this (keyboardEvent k code) w = w.
Proof. reflexivity. Qed.

Lemma dispatch_keyboardEvent (k : string) (code : Z) (w : World) :
  dispatchKeyDown (keyboardEvent k code) w = w.
Proof.
  unfold dispatchKeyDown. generalize (keydownListeners (document w)).
  intros ls. induction ls as [|l ls IH]; [done|]. simpl. apply IH.
Qed.

(** *** Registration of the listener *)

Lemma remove_registration_subseteq (l x : nat) (ls : list nat) :
  x ∈ remove_registration l ls → x ∈ ls.
Proof.
  induction ls as [|y ls IH]; simpl; [done|].
  case_decide.
  - intros Hx. by apply list_elem_of_further.
  - intros [->|Hx]%elem_of_cons.
    + apply list_elem_of_here.
    + by apply list_elem_of_further, IH.
Qed.

Lemma remove_registration_NoDup (l : nat) (ls : list nat) :
  NoDup ls → NoDup (remove_registration l ls).
Proof.
  induction 1 as [|y ls Hy Hnd IH]; simpl; [constructor|].
  case_decide; [done|]. constructor; [|done].
  intros Hin. by apply Hy, (remove_registration_subseteq l).
Qed.

Lemma remove_registration_gone (l : nat) (ls : list nat) :
  NoDup ls → l ∉ remove_registration l ls.
Proof.
  induction 1 as [|y ls Hy Hnd IH]; simpl; [apply not_elem_of_nil|].
  case_decide; [by subst|].
  intros [->|Hin]%elem_of_cons; done.
Qed.

Lemma exec_listeners (s : step) (w : World) :
  listeners (exec s w) =
    match s with
    | DidMount i =>
        if bool_decide (i ∈ listeners w) then listeners w
        else listeners w ++ [i]
    | WillUnmount i => remove_registration i (listeners w)
    | _ => listeners w
    end.
Proof.
  destruct s as [i p|i el|i|i p|i|trees active|e|i|i|i]; simpl; try done.
  - unfold _setDialogElement.
    by apply (with_this_ind (λ w', listeners w' = listeners w)).
  - unfold componentDidMount, listeners. simpl.
    fold (listeners (updateButtonFocus i w)).
    by rewrite updateButtonFocus_listeners.
  - unfold receiveProps.
    apply (with_this_ind (λ w', listeners w' = listeners w)); [done|].
    intros c _. unfold componentDidUpdate.
    apply (with_this_ind (λ w', listeners w' = listeners w)); [done|].
    intros c' _. destruct (_ || _); [|done].
    by rewrite updateButtonFocus_listeners.
  - unfold dispatchKeyDown, listeners. by rewrite dispatch_document.
  - unfold clickOK.
    apply (with_this_ind (λ w', listeners w' = listeners w)); [done|].
    intros c _. destruct (_renderOKButton c) as [b|]; [|done].
    unfold invoke. destruct (onClick b); [|done].
    unfold _onCancel.
    apply (with_this_ind (λ w', listeners w' = listeners w)); [done|].
    intros c' _. by destruct (truthy _).
  - unfold clickCancel.
    apply (with_this_ind (λ w', listeners w' = listeners w)); [done|].
    intros c _. destruct (_renderCancelButton c) as [b|]; [|done].
    unfold invoke. destruct (onClick b); [|done].
    unfold _onCancel.
    apply (with_this_ind (λ w', listeners w' = listeners w)); [done|].
    intros c' _. by destruct (truthy _).
  - unfold dismiss.
    apply (with_this_ind (λ w', listeners w' = listeners w)); [done|].
    intros c _. simpl. unfold _onCancel.
    apply (with_this_ind (λ w', listeners w' = listeners w)); [done|].
    intros c' _. by destruct (truthy _).
Qed.

(** The listener list never holds a listener twice. *)
Lemma exec_NoDup (s : step) (w : World) :
  NoDup (listeners w) → NoDup (listeners (exec s w)).
Proof.
  intros Hnd. rewrite exec_listeners. destruct s; try done.
  - case_bool_decide; [done|].
    apply NoDup_app. split; [done|]. split; [|apply NoDup_singleton].
    intros x Hx ->%list_elem_of_singleton. done.
  - by apply remove_registration_NoDup.
Qed.

(** A listener that is not registered stays so as long as its component
    is not mounted. *)
Lemma exec_keeps_unregistered (this : nat) (s : step) (w : World) :
  mounts this s = false →
  this ∉ listeners w → this ∉ listeners (exec s w).
Proof.
  intros Hs Hnotin. rewrite exec_listeners.
  destruct s as [i p|i el|i|i p|i|trees active|e|i|i|i]; try done.
  - simpl in Hs. apply bool_decide_eq_false in Hs.
    case_bool_decide; [done|].
    intros [Hin| ->%list_elem_of_singleton]%elem_of_app; done.
  - intros Hin. by apply Hnotin, (remove_registration_subseteq i).
Qed.

Lemma run_NoDup (ss : list step) (w : World) :
  NoDup (listeners w) → NoDup (listeners (run ss w)).
Proof.
  revert w. induction ss as [|s ss IH]; intros w Hw; [done|].
  simpl. by apply IH, exec_NoDup.
Qed.

Lemma run_keeps_unregistered (this : nat) (ss : list step) (w : World) :
  Forall (λ s, mounts this s = false) ss →
  this ∉ listeners w → this ∉ listeners (run ss w).
Proof.
  intros Hss. revert w. induction Hss as [|s ss Hs _ IH]; intros w Hw; [done|].
  simpl. by apply IH, exec_keeps_unregistered.
Qed.

(** *** The claims *)

(** C1 (the code departs from it): the Enter key event a browser delivers,
    dispatched while instance 7 is mounted and its listener registered,
    leaves the world as it is, no call of [_onSubmit] is made, whereas
    activating the confirm control calls [_onSubmit]. *)
Theorem enter_keydown_does_not_submit :
  listeners mounted_world = [7]
  ∧ key enterKeyEvent = VStr "Enter"
  ∧ dispatchKeyDown enterKeyEvent mounted_world = mounted_world
  ∧ calls (dispatchKeyDown enterKeyEvent mounted_world) = []
  ∧ calls (clickOK 7 mounted_world)
    = [AbstractDialog_onSubmit 7 (Some EClick)].
Proof.
  split; [vm_compute; reflexivity|]. split; [reflexivity|].
  assert (dispatchKeyDown enterKeyEvent mounted_world = mounted_world) as ->
    by apply (dispatch_keyboardEvent "Enter" 13).
  repeat split; vm_compute; reflexivity.
Qed.

(** C4: while [isModal] is true (truthy), [_renderCancelButton] returns
    nothing, and a request to cancel, whether a call of [_onCancel], a
    click on the cancel control or a dismissal signalled by the modal
    host, leaves the world unchanged: [super._onCancel()] is not
    called. *)
Theorem modal_dialog_ignores_cancel (this : nat) (w : World) (c : Component) :
  instances w !! this = Some c →
  truthy (isModal (props c)) = true →
  _renderCancelButton c = None
  ∧ _onCancel this w = w
  ∧ clickCancel this w = w
  ∧ dismiss this w = w
  ∧ onDialogDismissed (render c) = This_onCancel.
Proof.
  intros Hc Hmodal.
  assert (_renderCancelButton c = None) as Hrender.
  { unfold _renderCancelButton, or_else.
    destruct (truthy (cancelDisabled (props c))) eqn:Hcd.
    - by rewrite Hcd.
    - by rewrite Hmodal. }
  assert (_onCancel this w = w) as Hcancel.
  { unfold _onCancel, with_this. by rewrite Hc, Hmodal. }
  repeat split; try done.
  - unfold clickCancel, with_this. by rewrite Hc, Hrender.
  - unfold dismiss, with_this. rewrite Hc. exact Hcancel.
Qed.

Lemma modal_dialog_ignores_cancel_witness :
  instances (rendered_world modal_props (Some 9)) !! 7
    = Some (mkComponent modal_props (Some 1))
  ∧ truthy (isModal (props (mkComponent modal_props (Some 1)))) = true
  ∧ _renderCancelButton (mkComponent modal_props (Some 1)) = None
  ∧ _onCancel 7 (rendered_world modal_props (Some 9))
    = rendered_world modal_props (Some 9)
  ∧ clickCancel 7 (rendered_world modal_props (Some 9))
    = rendered_world modal_props (Some 9)
  ∧ dismiss 7 (rendered_world modal_props (Some 9))
    = rendered_world modal_props (Some 9)
  ∧ onDialogDismissed (render (mkComponent modal_props (Some 1)))
    = This_onCancel.
Proof.
  split; [vm_compute; reflexivity|]. split; [reflexivity|].
  apply (modal_dialog_ignores_cancel 7 (rendered_world modal_props (Some 9))
           (mkComponent modal_props (Some 1))).
  - vm_compute; reflexivity.
  - reflexivity.
Defined.

(** C5: when the instance has a dialog element that does not contain the
    active element, [updateButtonFocus] focuses the confirm control if
    [okDisabled] is false (falsy), whatever [cancelDisabled] is, and the
    cancel control if [okDisabled] is true (truthy); if the control it
    selected is not in the dialog, the world is left as it is. *)
Theorem updateButtonFocus_selects (this : nat) (w : World) (c : Component)
    (d : nat) :
  instances w !! this = Some c →
  _dialogElement c = Some d →
  contains (document w) d (activeElement (document w)) = false →
  (∀ b, truthy (okDisabled (props c)) = false →
        querySelector (document w) d (AttrEquals "id" OK_BUTTON_ID) = Some b →
        updateButtonFocus this w = set_document (focus b (document w)) w
        ∧ activeElement (document (updateButtonFocus this w)) = Some b)
  ∧ (∀ b, truthy (okDisabled (props c)) = true →
        querySelector (document w) d (AttrEquals "id" CANCEL_BUTTON_ID)
          = Some b →
        updateButtonFocus this w = set_document (focus b (document w)) w
        ∧ activeElement (document (updateButtonFocus this w)) = Some b)
  ∧ (querySelector (document w) d
       (AttrEquals "id"
          (if truthy (okDisabled (props c))
           then CANCEL_BUTTON_ID else OK_BUTTON_ID)) = None →
     updateButtonFocus this w = w).
Proof.
  intros Hc Hd Hout.
  assert (updateButtonFocus this w =
            match (if truthy (okDisabled (props c))
                   then querySelector (document w) d
                          (AttrEquals "id" CANCEL_BUTTON_ID)
                   else querySelector (document w) d
                          (AttrEquals "id" OK_BUTTON_ID)) with
            | Some b => set_document (focus b (document w)) w
            | None => w
            end) as Heq.
  { unfold updateButtonFocus, with_this. by rewrite Hc, Hd, Hout. }
  split; [|split].
  - intros b Hok Hq. rewrite Heq, Hok, Hq. done.
  - intros b Hok Hq. rewrite Heq, Hok, Hq. done.
  - intros Hq. rewrite Heq.
    destruct (truthy (okDisabled (props c))); by rewrite Hq.
Qed.

Lemma updateButtonFocus_selects_witness :
  instances (rendered_world plain_props (Some 9)) !! 7
    = Some (mkComponent plain_props (Some 1))
  ∧ _dialogElement (mkComponent plain_props (Some 1)) = Some 1
  ∧ contains (document (rendered_world plain_props (Some 9))) 1
      (activeElement (document (rendered_world plain_props (Some 9)))) = false
  ∧ activeElement
      (document (updateButtonFocus 7 (rendered_world plain_props (Some 9))))
    = Some 4.
Proof.
  assert (instances (rendered_world plain_props (Some 9)) !! 7
          = Some (mkComponent plain_props (Some 1))) as Hc
    by (vm_compute; reflexivity).
  assert (contains (document (rendered_world plain_props (Some 9))) 1
            (activeElement (document (rendered_world plain_props (Some 9))))
          = false) as Hout
    by (vm_compute; reflexivity).
  split; [exact Hc|]. split; [reflexivity|]. split; [exact Hout|].
  destruct (updateButtonFocus_selects 7 (rendered_world plain_props (Some 9))
              (mkComponent plain_props (Some 1)) 1 Hc eq_refl Hout)
    as [Hok _].
  apply (Hok 4); vm_compute; reflexivity.
Defined.

(** C7: when the active element lies inside the dialog element,
    [updateButtonFocus] leaves the world, and with it the focus, exactly
    as it is; so do the lifecycle methods that run it, up to the
    registration of the listener by [componentDidMount]. *)
Theorem updateButtonFocus_keeps_focus (this : nat) (w : World) (c : Component)
    (d : nat) (prevProps : Props) :
  instances w !! this = Some c →
  _dialogElement c = Some d →
  contains (document w) d (activeElement (document w)) = true →
  updateButtonFocus this w = w
  ∧ componentDidUpdate this prevProps w = w
  ∧ activeElement (document (componentDidMount this w))
    = activeElement (document w).
Proof.
  intros Hc Hd Hin.
  assert (updateButtonFocus this w = w) as Heq.
  { unfold updateButtonFocus, with_this. by rewrite Hc, Hd, Hin. }
  split; [done|]. split.
  - unfold componentDidUpdate, with_this. rewrite Hc, Heq.
    by destruct (_ || _).
  - unfold componentDidMount. by rewrite Heq.
Qed.

Lemma updateButtonFocus_keeps_focus_witness :
  instances (rendered_world plain_props (Some 5)) !! 7
    = Some (mkComponent plain_props (Some 1))
  ∧ _dialogElement (mkComponent plain_props (Some 1)) = Some 1
  ∧ contains (document (rendered_world plain_props (Some 5))) 1
      (activeElement (document (rendered_world plain_props (Some 5)))) = true
  ∧ updateButtonFocus 7 (rendered_world plain_props (Some 5))
    = rendered_world plain_props (Some 5)
  ∧ componentDidUpdate 7 ok_disabled_props
      (rendered_world plain_props (Some 5))
    = rendered_world plain_props (Some 5)
  ∧ activeElement
      (document (componentDidMount 7 (rendered_world plain_props (Some 5))))
    = activeElement (document (rendered_world plain_props (Some 5))).
Proof.
  split; [vm_compute; reflexivity|]. split; [reflexivity|].
  split; [vm_compute; reflexivity|].
  apply (updateButtonFocus_keeps_focus 7 (rendered_world plain_props (Some 5))
           (mkComponent plain_props (Some 1)) 1 ok_disabled_props);
    vm_compute; reflexivity.
Defined.

(** C6: once [componentWillUnmount] has run, in a world whose listener
    list holds no listener twice, the component's listener is not
    registered any more and stays unregistered through everything that
    happens afterwards short of mounting this instance again; a key-down
    event dispatched then adds no call made on behalf of this instance,
    whatever the event carries. *)
Theorem no_keydown_effect_after_unmount (this : nat) (w : World)
    (ss : list step) (e : KeyEvent) :
  NoDup (listeners w) →
  Forall (λ s, mounts this s = false) ss →
  (this ∉ listeners (run ss (componentWillUnmount this w)))
  ∧ calls_of this (dispatchKeyDown e (run ss (componentWillUnmount this w)))
    = calls_of this (run ss (componentWillUnmount this w)).
Proof.
  intros Hnd Hss.
  assert (this ∉ listeners (run ss (componentWillUnmount this w))) as Hgone.
  { apply run_keeps_unregistered; [done|].
    by apply remove_registration_gone. }
  split; [done|]. by apply dispatch_calls_of.
Qed.

Lemma no_keydown_effect_after_unmount_witness :
  NoDup (listeners mounted_world)
  ∧ Forall (λ s, mounts 7 s = false)
      [KeyDown numeric_key_event; DidMount 8; KeyDown enterKeyEvent]
  ∧ (7 ∉ listeners
          (run [KeyDown numeric_key_event; DidMount 8; KeyDown enterKeyEvent]
             (componentWillUnmount 7 mounted_world)))
  ∧ calls_of 7
      (dispatchKeyDown numeric_key_event
         (run [KeyDown numeric_key_event; DidMount 8; KeyDown enterKeyEvent]
            (componentWillUnmount 7 mounted_world)))
    = calls_of 7
        (run [KeyDown numeric_key_event; DidMount 8; KeyDown enterKeyEvent]
           (componentWillUnmount 7 mounted_world)).
Proof.
  assert (NoDup (listeners mounted_world)) as Hnd.
  { vm_compute. apply NoDup_singleton. }
  assert (Forall (λ s, mounts 7 s = false)
            [KeyDown numeric_key_event; DidMount 8; KeyDown enterKeyEvent])
    as Hss.
  { repeat constructor. }
  split; [exact Hnd|]. split; [exact Hss|].
  apply (no_keydown_effect_after_unmount 7 mounted_world
           [KeyDown numeric_key_event; DidMount 8; KeyDown enterKeyEvent]
           numeric_key_event Hnd Hss).
Defined.

(** While the instance is mounted, an event object whose [key] is the
    number 13 does reach [_onSubmit]: the listener is live before the
    unmount and silent after it. *)
Example listener_live_until_unmount :
  calls (dispatchKeyDown numeric_key_event mounted_world)
    = [AbstractDialog_onSubmit 7 None]
  ∧ calls (dispatchKeyDown numeric_key_event
             (componentWillUnmount 7 mounted_world)) = [].
Proof. split; vm_compute; reflexivity. Qed.

(** Focus assignment on the example document: the confirm control when it
    is enabled, the cancel control when it is not, and no change when the
    focus already is on the input inside the dialog. *)
Example focus_assignment_examples :
  activeElement (document (updateButtonFocus 7
                             (rendered_world plain_props (Some 9)))) = Some 4
  ∧ activeElement (document (updateButtonFocus 7
                               (rendered_world ok_disabled_props (Some 9))))
    = Some 3
  ∧ activeElement (document (updateButtonFocus 7
                               (rendered_world plain_props (Some 5))))
    = Some 5.
Proof. repeat split; vm_compute; reflexivity. Qed.

End DialogSpec.

(** ** Further properties of the reducer *)

Module DeviceSelectionFacts.

Import DeviceSelection Examples DeviceSelectionSpec.

Lemma alloc_lookup_old (h : heap) (o o' : obj) (l : loc) :
  h !! l = Some o → (alloc h o').1 !! l = Some o.
Proof.
  intros Hl. simpl. rewrite lookup_insert_ne; [done|].
  intros <-. apply (is_fresh (dom h)), elem_of_dom. eauto.
Qed.

Lemma default_state_lookup_old (h : heap) (s : value) (o : obj) (l : loc) :
  h !! l = Some o → (default_state h s).1 !! l = Some o.
Proof.
  unfold default_state. case_decide; [|done]. apply alloc_lookup_old.
Qed.

(** The shape of every result of the reducer. *)
Lemma reducer_result_shape (h h' : heap) (s s' a : value) :
  reducer h s a = Ok (h', s') →
  (h', s') = default_state h s
  ∨ ∃ o, (h', s') = alloc (default_state h s).1 o.
Proof.
  rewrite reducer_eq. destruct (get_prop h a "type") as [ty|]; [|done].
  simpl. destruct (strict_eq ty SET_DEVICE_SELECTION_POPUP).
  - destruct (get_prop h a "popupDialog") as [r|]; [|done].
    simpl. intros Heq. right.
    exists (<["popupDialog" := r]> (own_props h s)).
    symmetry. exact (f_equal (λ x, match x with Ok p => p | TypeError => (h', s') end) Heq).
  - intros Heq. left.
    symmetry. exact (f_equal (λ x, match x with Ok p => p | TypeError => (h', s') end) Heq).
Qed.

Lemma reducer_lookup_old (h h' : heap) (s s' a : value) (o : obj) (l : loc) :
  reducer h s a = Ok (h', s') → h !! l = Some o → h' !! l = Some o.
Proof.
  intros Hred Hl.
  destruct (reducer_result_shape _ _ _ _ _ Hred) as [Heq|[o' Heq]].
  - change h' with (h', s').1. rewrite Heq.
    by apply default_state_lookup_old.
  - change h' with (h', s').1. rewrite Heq.
    by apply alloc_lookup_old, default_state_lookup_old.
Qed.

Lemma get_prop_reducer_old (h h' : heap) (s s' a v : value) (k : string) :
  reducer h s a = Ok (h', s') → value_wf h v →
  get_prop h' v k = get_prop h v k.
Proof.
  intros Hred Hwf.
  destruct v as [| | | | str |? ?|l]; try reflexivity.
  simpl in Hwf. apply elem_of_dom in Hwf as [o Ho].
  unfold get_prop, own_props.
  by rewrite Ho, (reducer_lookup_old _ _ _ _ _ _ _ Hred Ho).
Qed.

(** X1: the reducer throws exactly on the actions [undefined] and [null],
    whatever the state; on every other action it returns. *)
Theorem reducer_throws_iff_nullish (h : heap) (s a : value) :
  reducer h s a = TypeError ↔ nullish a = true.
Proof.
  split; [|apply reducer_throws].
  intros Hthrow. destruct (nullish a) eqn:Ha; [done|].
  destruct (get_prop_ok h a "type" Ha) as [ty Hty].
  destruct (get_prop_ok h a "popupDialog" Ha) as [r Hr].
  destruct (decide (ty = SET_DEVICE_SELECTION_POPUP)) as [->|Hne].
  - by rewrite (reducer_set h s a r Hty Hr) in Hthrow.
  - by rewrite (reducer_other h s a ty Hty Hne) in Hthrow.
Qed.

(** X2: the reducer does not mutate: every object of the heap it is
    called in is there with the same properties in the heap it returns,
    so every value that does not dangle, the state and the action among
    them, reads the same before and after. *)
Theorem reducer_never_mutates (h h' : heap) (s s' a : value) :
  reducer h s a = Ok (h', s') →
  (∀ (l : loc) (o : obj), h !! l = Some o → h' !! l = Some o)
  ∧ (∀ (v : value) (k : string),
       value_wf h v → get_prop h' v k = get_prop h v k).
Proof.
  intros Hred. split.
  - intros l o. apply (reducer_lookup_old _ _ _ _ _ _ _ Hred).
  - intros v k. apply (get_prop_reducer_old _ _ _ _ _ _ _ Hred).
Qed.

Lemma reducer_never_mutates_witness :
  reducer heap0 (VRef 0) (VRef 1)
    = Ok (<[5 := <["popupDialog" := VRef 2]> state_obj]> heap0, VRef 5)
  ∧ (∀ (l : loc) (o : obj),
       heap0 !! l = Some o →
       (<[5 := <["popupDialog" := VRef 2]> state_obj]> heap0) !! l = Some o)
  ∧ (∀ (v : value) (k : string),
       value_wf heap0 v →
       get_prop (<[5 := <["popupDialog" := VRef 2]> state_obj]> heap0) v k
       = get_prop heap0 v k).
Proof.
  assert (reducer heap0 (VRef 0) (VRef 1)
          = Ok (<[5 := <["popupDialog" := VRef 2]> state_obj]> heap0, VRef 5))
    as Hred by (vm_compute; reflexivity).
  split; [exact Hred|].
  exact (reducer_never_mutates heap0 _ (VRef 0) (VRef 5) (VRef 1) Hred).
Defined.

(** What a call does to the properties of the state. *)
Lemma reducer_own_props (h h' : heap) (s s' a : value) :
  reducer h s a = Ok (h', s') →
  own_props h' s' = own_props h s
  ∨ ∃ r, get_prop h a "popupDialog" = Ok r
         ∧ own_props h' s' = <["popupDialog" := r]> (own_props h s).
Proof.
  intros Hred.
  destruct (reducer_result_shape _ _ _ _ _ Hred) as [Heq|_].
  - left. assert (h' = (default_state h s).1) as -> by (by rewrite <- Heq).
    assert (s' = (default_state h s).2) as -> by (by rewrite <- Heq).
    apply own_props_default_state.
  - revert Hred. rewrite reducer_eq.
    destruct (get_prop h a "type") as [ty|]; [|done].
    simpl. destruct (strict_eq ty SET_DEVICE_SELECTION_POPUP).
    + destruct (get_prop h a "popupDialog") as [r|]; [|done].
      simpl. intros Heq. right. exists r. split; [done|].
      set (o := <["popupDialog" := r]> (own_props h s)) in *.
      assert ((h', s') = alloc (default_state h s).1 o) as Hpair.
      { symmetry. exact (f_equal (λ x, match x with
                                        | Ok p => p
                                        | TypeError => (h', s')
                                        end) Heq). }
      assert (h' = (alloc (default_state h s).1 o).1) as ->
        by (by rewrite <- Hpair).
      assert (s' = (alloc (default_state h s).1 o).2) as ->
        by (by rewrite <- Hpair).
      apply own_props_alloc_new.
    + intros Heq. left.
      assert ((h', s') = default_state h s) as Hpair.
      { symmetry. exact (f_equal (λ x, match x with
                                        | Ok p => p
                                        | TypeError => (h', s')
                                        end) Heq). }
      assert (h' = (default_state h s).1) as -> by (by rewrite <- Hpair).
      assert (s' = (default_state h s).2) as -> by (by rewrite <- Hpair).
      apply own_props_default_state.
Qed.

(** X3: of two set-popup actions reduced one after the other the last
    one wins: the state reached has the properties of the initial state
    with [popupDialog] replaced by what the second action carries. *)
Theorem reducer_last_set_wins (h : heap) (s a1 a2 r1 r2 : value) :
  get_prop h a1 "type" = Ok SET_DEVICE_SELECTION_POPUP →
  get_prop h a1 "popupDialog" = Ok r1 →
  get_prop h a2 "type" = Ok SET_DEVICE_SELECTION_POPUP →
  get_prop h a2 "popupDialog" = Ok r2 →
  ∃ h2 s2,
    reduce_all h s [a1; a2] = Ok (h2, s2)
    ∧ own_props h2 s2 = <["popupDialog" := r2]> (own_props h s).
Proof.
  intros Hty1 Hr1 Hty2 Hr2.
  destruct (reducer_set_result h s a1 r1 Hty1 Hr1)
    as (h1 & s1 & Hred1 & _ & Hobj1).
  pose proof (symbol_typed_wf h a2 _ _ Hty2) as Hwf2.
  assert (get_prop h1 a2 "type" = Ok SET_DEVICE_SELECTION_POPUP) as Hty2'
    by (by rewrite (get_prop_reducer_old _ _ _ _ _ _ _ Hred1 Hwf2)).
  assert (get_prop h1 a2 "popupDialog" = Ok r2) as Hr2'
    by (by rewrite (get_prop_reducer_old _ _ _ _ _ _ _ Hred1 Hwf2)).
  destruct (reducer_set_result h1 s1 a2 r2 Hty2' Hr2')
    as (h2 & s2 & Hred2 & _ & Hobj2).
  exists h2, s2. split.
  - simpl. by rewrite Hred1, Hred2.
  - by rewrite Hobj2, Hobj1, insert_insert_eq.
Qed.

Lemma reducer_last_set_wins_witness :
  get_prop heap1 (VRef 1) "type" = Ok SET_DEVICE_SELECTION_POPUP
  ∧ get_prop heap1 (VRef 1) "popupDialog" = Ok (VRef 2)
  ∧ get_prop heap1 (VRef 6) "type" = Ok SET_DEVICE_SELECTION_POPUP
  ∧ get_prop heap1 (VRef 6) "popupDialog" = Ok (VNum 1)
  ∧ ∃ h2 s2,
      reduce_all heap1 (VRef 0) [VRef 1; VRef 6] = Ok (h2, s2)
      ∧ own_props h2 s2
        = <["popupDialog" := VNum 1]> (own_props heap1 (VRef 0)).
Proof.
  repeat (split; [vm_compute; reflexivity|]).
  apply (reducer_last_set_wins heap1 (VRef 0) (VRef 1) (VRef 6)
           (VRef 2) (VNum 1)); vm_compute; reflexivity.
Defined.

(** X4: a set-popup action reduced on the absent state gives an object
    whose only property is [popupDialog]. *)
Theorem reducer_set_on_absent_state (h : heap) (a r : value) :
  get_prop h a "type" = Ok SET_DEVICE_SELECTION_POPUP →
  get_prop h a "popupDialog" = Ok r →
  ∃ h' s',
    reducer h VUndef a = Ok (h', s')
    ∧ own_props h' s' = {[ "popupDialog" := r ]}.
Proof.
  intros Hty Hr.
  destruct (reducer_set_result h VUndef a r Hty Hr)
    as (h' & s' & Hred & _ & Hobj).
  exists h', s'. split; [done|]. rewrite Hobj. simpl. apply insert_empty.
Qed.

Lemma reducer_set_on_absent_state_witness :
  get_prop heap0 (VRef 1) "type" = Ok SET_DEVICE_SELECTION_POPUP
  ∧ get_prop heap0 (VRef 1) "popupDialog" = Ok (VRef 2)
  ∧ ∃ h' s',
      reducer heap0 VUndef (VRef 1) = Ok (h', s')
      ∧ own_props h' s' = {[ "popupDialog" := VRef 2 ]}.
Proof.
  repeat (split; [vm_compute; reflexivity|]).
  apply (reducer_set_on_absent_state heap0 (VRef 1) (VRef 2));
    vm_compute; reflexivity.
Defined.

(** X5: a set-popup action that has no [popupDialog] of its own clears
    the field without removing it: the new state has the own property
    [popupDialog], with the value [undefined]. *)
Theorem reducer_set_without_popup (h : heap) (s a : value) :
  get_prop h a "type" = Ok SET_DEVICE_SELECTION_POPUP →
  own_props h a !! "popupDialog" = None →
  ∃ h' s',
    reducer h s a = Ok (h', s')
    ∧ own_props h' s' !! "popupDialog" = Some VUndef
    ∧ get_prop h' s' "popupDialog" = Ok VUndef.
Proof.
  intros Hty Hnone.
  assert (get_prop h a "popupDialog" = Ok VUndef) as Hr.
  { destruct a; try done; simpl in *; by rewrite Hnone. }
  destruct (reducer_set_result h s a VUndef Hty Hr)
    as (h' & s' & Hred & Hget & Hobj).
  exists h', s'. split; [done|]. split; [|done].
  by rewrite Hobj, lookup_insert_eq.
Qed.

Lemma reducer_set_without_popup_witness :
  get_prop heap1 (VRef 5) "type" = Ok SET_DEVICE_SELECTION_POPUP
  ∧ own_props heap1 (VRef 5) !! "popupDialog" = None
  ∧ ∃ h' s',
      reducer heap1 (VRef 0) (VRef 5) = Ok (h', s')
      ∧ own_props h' s' !! "popupDialog" = Some VUndef
      ∧ get_prop h' s' "popupDialog" = Ok VUndef.
Proof.
  repeat (split; [vm_compute; reflexivity|]).
  apply (reducer_set_without_popup heap1 (VRef 0) (VRef 5));
    vm_compute; reflexivity.
Defined.



(** X7: a run of actions none of which has the type
    [SET_DEVICE_SELECTION_POPUP], however long, returns the very state it
    started from, in the unchanged heap. *)
Theorem reduce_all_other_actions_identity (h : heap) (s : value)
    (actions : list value) :
  s ≠ VUndef →
  Forall (λ a, ∃ ty, get_prop h a "type" = Ok ty
                     ∧ ty ≠ SET_DEVICE_SELECTION_POPUP) actions →
  reduce_all h s actions = Ok (h, s).
Proof.
  intros Hs Hall. induction Hall as [|a rest (ty & Hty & Hne) _ IH]; [done|].
  simpl. rewrite (reducer_other h s a ty Hty Hne).
  by rewrite default_state_present.
Qed.

Lemma reduce_all_other_actions_identity_witness :
  VRef 0 ≠ VUndef
  ∧ Forall (λ a, ∃ ty, get_prop heap0 a "type" = Ok ty
                       ∧ ty ≠ SET_DEVICE_SELECTION_POPUP)
      [VRef 3; VRef 4; VNum 5; VRef 3]
  ∧ reduce_all heap0 (VRef 0) [VRef 3; VRef 4; VNum 5; VRef 3]
    = Ok (heap0, VRef 0).
Proof.
  assert (Forall (λ a, ∃ ty, get_prop heap0 a "type" = Ok ty
                         ∧ ty ≠ SET_DEVICE_SELECTION_POPUP)
            [VRef 3; VRef 4; VNum 5; VRef 3]) as Hall.
  { repeat constructor.
    - exists (VStr "SET_DEVICE_SELECTION_POPUP").
      split; [vm_compute; reflexivity|done].
    - exists VUndef. split; [vm_compute; reflexivity|done].
    - exists VUndef. split; [vm_compute; reflexivity|done].
    - exists (VStr "SET_DEVICE_SELECTION_POPUP").
      split; [vm_compute; reflexivity|done]. }
  split; [done|]. split; [exact Hall|].
  apply (reduce_all_other_actions_identity heap0 (VRef 0) _ ltac:(done) Hall).
Defined.

(** X8: whatever actions a run consists of, if it completes, every
    property of the state other than [popupDialog] is in the final state
    what it was in the initial one, present or absent alike. *)
Theorem reduce_all_frame (h h' : heap) (s s' : value) (actions : list value)
    (k : string) :
  reduce_all h s actions = Ok (h', s') →
  k ≠ "popupDialog"%string →
  own_props h' s' !! k = own_props h s !! k.
Proof.
  intros Hrun Hk. revert h s Hrun.
  induction actions as [|a rest IH]; intros h s Hrun.
  - simpl in Hrun. by injection Hrun as <- <-.
  - simpl in Hrun.
    destruct (reducer h s a) as [[h1 s1]|] eqn:Hred; [|done].
    rewrite (IH h1 s1 Hrun).
    destruct (reducer_own_props _ _ _ _ _ Hred) as [->|(r & _ & ->)];
      [done|]. by rewrite lookup_insert_ne.
Qed.

Lemma reduce_all_frame_witness :
  reduce_all heap1 (VRef 0) [VRef 1; VRef 3; VRef 5]
    = Ok (<[8 := <["popupDialog" := VUndef]> state_obj]>
            (<[7 := <["popupDialog" := VRef 2]> state_obj]> heap1), VRef 8)
  ∧ "other"%string ≠ "popupDialog"%string
  ∧ own_props (<[8 := <["popupDialog" := VUndef]> state_obj]>
                 (<[7 := <["popupDialog" := VRef 2]> state_obj]> heap1))
      (VRef 8) !! "other"
    = own_props heap1 (VRef 0) !! "other".
Proof.
  assert (reduce_all heap1 (VRef 0) [VRef 1; VRef 3; VRef 5]
          = Ok (<[8 := <["popupDialog" := VUndef]> state_obj]>
                  (<[7 := <["popupDialog" := VRef 2]> state_obj]> heap1),
                VRef 8)) as Hrun by (vm_compute; reflexivity).
  split; [exact Hrun|]. split; [done|].
  exact (reduce_all_frame heap1 _ (VRef 0) (VRef 8) _ "other" Hrun
           ltac:(done)).
Defined.

End DeviceSelectionFacts.

(** ** Further properties of the dialog *)

Module DialogFacts.

Import Dialog Examples DialogSpec.

(** *** Searching the DOM *)

Lemma node_forest_ind (P : node → Prop) :
  (∀ u a cs, Forall P cs → P (Node u a cs)) → ∀ n, P n.
Proof.
  intros step. fix IH 1. intros [u a cs]. apply step.
  induction cs as [|c cs IHcs]; constructor; [apply IH|exact IHcs].
Qed.

Lemma find_first_unfold (p : node → bool) (n : node) :
  find_first p n
  = if p n then Some n else find_in_forest p (node_children n).
Proof.
  destruct n as [u a cs]. simpl. destruct (p (Node u a cs)); [done|].
  induction cs as [|c cs IH]; [done|].
  simpl. destruct (find_first p c); [done|]. exact IH.
Qed.

Lemma find_first_reaches (p q : node → bool) (n r : node) :
  find_first p n = Some r → q r = true → is_Some (find_first q n).
Proof.
  revert r. induction n as [u a cs IH] using node_forest_ind.
  intros r Hp Hq. rewrite find_first_unfold in Hp. rewrite find_first_unfold.
  destruct (q (Node u a cs)) eqn:Hqn; [eauto|].
  destruct (p (Node u a cs)); [congruence|]. clear Hqn.
  simpl in Hp |- *. revert Hp.
  induction IH as [|c cs Hc _ IHcs]; [done|].
  simpl. intros Hp. destruct (find_first p c) as [r'|] eqn:Hpc.
  - injection Hp as ->. destruct (Hc r eq_refl Hq) as [x ->]. eauto.
  - destruct (find_first q c); [eauto|]. by apply IHcs.
Qed.

Lemma find_in_forest_reaches (p q : node → bool) (l : list node) (r : node) :
  find_in_forest p l = Some r → q r = true → is_Some (find_in_forest q l).
Proof.
  induction l as [|c l IH]; [done|]. simpl. intros Hp Hq.
  destruct (find_first p c) as [r'|] eqn:Hpc.
  - injection Hp as ->.
    destruct (find_first_reaches p q c r Hpc Hq) as [x ->]. eauto.
  - destruct (find_first q c); [eauto|]. by apply IH.
Qed.

(** What [querySelector] returns is inside the element queried. *)
Lemma querySelector_contains (doc : Document) (d b : nat) (sel : selector) :
  querySelector doc d sel = Some b → contains doc d (Some b) = true.
Proof.
  unfold querySelector, contains.
  destruct (element_of doc d) as [n|]; [|done]. simpl.
  destruct (find_in_forest (matches sel) (node_children n)) as [r|] eqn:Hr;
    [|done].
  simpl. intros [= <-]. apply bool_decide_eq_true_2.
  rewrite find_first_unfold. destruct (has_uid (node_uid r) n); [eauto|].
  apply (find_in_forest_reaches _ _ _ r Hr).
  unfold has_uid. by apply bool_decide_eq_true_2.
Qed.

(** The two ways [updateButtonFocus] can go. *)
Lemma updateButtonFocus_cases (this : nat) (w : World) :
  updateButtonFocus this w = w
  ∨ ∃ c d b,
      instances w !! this = Some c
      ∧ _dialogElement c = Some d
      ∧ contains (document w) d (activeElement (document w)) = false
      ∧ updateButtonFocus this w = set_document (focus b (document w)) w
      ∧ contains (document w) d (Some b) = true.
Proof.
  unfold updateButtonFocus, with_this.
  destruct (instances w !! this) as [c|] eqn:Hc; [|by left].
  destruct (_dialogElement c) as [d|] eqn:Hd; [|by left].
  destruct (contains (document w) d (activeElement (document w))) eqn:Hin;
    [by left|].
  destruct (truthy (okDisabled (props c))).
  - destruct (querySelector _ _ _) as [b|] eqn:Hq; [|by left].
    right. exists c, d, b. repeat split; try done.
    by apply (querySelector_contains _ _ _ _ Hq).
  - destruct (querySelector _ _ _) as [b|] eqn:Hq; [|by left].
    right. exists c, d, b. repeat split; try done.
    by apply (querySelector_contains _ _ _ _ Hq).
Qed.

(** X9: [updateButtonFocus] either leaves the world as it is or moves the
    focus from outside the dialog element to an element inside it;
    nothing else of the world changes. *)
Theorem updateButtonFocus_moves_focus_inside (this : nat) (w : World) :
  updateButtonFocus this w = w
  ∨ ∃ c d b,
      instances w !! this = Some c
      ∧ _dialogElement c = Some d
      ∧ contains (document w) d (activeElement (document w)) = false
      ∧ contains (document w) d (Some b) = true
      ∧ updateButtonFocus this w
        = mkWorld (mkDocument (roots (document w)) (Some b) (listeners w))
            (instances w) (calls w).
Proof.
  destruct (updateButtonFocus_cases this w)
    as [Heq|(c & d & b & Hc & Hd & Hout & Heq & Hin)]; [by left|].
  right. by exists c, d, b.
Qed.

(** X10: focus assignment is idempotent: running [updateButtonFocus]
    again right after it has run changes nothing. *)
Theorem updateButtonFocus_idempotent (this : nat) (w : World) :
  updateButtonFocus this (updateButtonFocus this w) = updateButtonFocus this w.
Proof.
  destruct (updateButtonFocus_cases this w)
    as [Heq|(c & d & b & Hc & Hd & Hout & Heq & Hin)].
  - by rewrite !Heq.
  - rewrite Heq. unfold updateButtonFocus at 1. unfold with_this. simpl.
    rewrite Hc, Hd.
    change (contains (focus b (document w)) d (Some b))
      with (contains (document w) d (Some b)).
    by rewrite Hin.
Qed.

(** X11: when React has cleared the reference to the dialog element
    ([_setDialogElement(null)]), focus assignment does nothing. *)
Theorem updateButtonFocus_without_element (this : nat) (w : World) :
  updateButtonFocus this (_setDialogElement this None w)
  = _setDialogElement this None w.
Proof.
  unfold _setDialogElement, with_this.
  destruct (instances w !! this) as [c|] eqn:Hc.
  - unfold updateButtonFocus, with_this. simpl.
    by rewrite lookup_insert_eq.
  - unfold updateButtonFocus, with_this. by rewrite Hc.
Qed.

(** *** The listener over the life of the component *)

Lemma remove_registration_last (l : nat) (ls : list nat) :
  l ∉ ls → remove_registration l (ls ++ [l]) = ls.
Proof.
  induction ls as [|x ls IH]; simpl; intros Hl.
  - by case_decide.
  - apply not_elem_of_cons in Hl as [Hne Hl].
    case_decide; [by subst|]. by rewrite IH.
Qed.

Lemma remove_registration_keeps (l x : nat) (ls : list nat) :
  x ≠ l → x ∈ ls → x ∈ remove_registration l ls.
Proof.
  intros Hne. induction ls as [|y ls IH]; simpl; [done|].
  intros [->|Hx]%elem_of_cons.
  - case_decide; [done|]. apply list_elem_of_here.
  - case_decide; [done|]. by apply list_elem_of_further, IH.
Qed.

Lemma componentDidMount_listeners (this : nat) (w : World) :
  listeners (componentDidMount this w)
  = if bool_decide (this ∈ listeners w) then listeners w
    else listeners w ++ [this].
Proof. apply (exec_listeners (DidMount this) w). Qed.

Lemma componentDidMount_calls (this : nat) (w : World) :
  calls (componentDidMount this w) = calls w.
Proof. unfold componentDidMount. simpl. apply updateButtonFocus_calls. Qed.

(** X12: mounting registers the listener and unmounting removes exactly
    that registration: for an instance that was not registered, the
    listeners after [componentDidMount] followed by
    [componentWillUnmount] are the listeners before, in the same order,
    and no call into [AbstractDialog] was made. *)
Theorem mount_unmount_restores_listeners (this : nat) (w : World) :
  this ∉ listeners w →
  this ∈ listeners (componentDidMount this w)
  ∧ listeners (componentWillUnmount this (componentDidMount this w))
    = listeners w
  ∧ calls (componentWillUnmount this (componentDidMount this w)) = calls w.
Proof.
  intros Hnew.
  pose proof (componentDidMount_listeners this w) as Hm.
  rewrite bool_decide_eq_false_2 in Hm by done.
  split; [|split].
  - rewrite Hm. apply elem_of_app. right. apply list_elem_of_here.
  - change (listeners (componentWillUnmount this (componentDidMount this w)))
      with (remove_registration this (listeners (componentDidMount this w))).
    rewrite Hm. by apply remove_registration_last.
  - apply componentDidMount_calls.
Qed.

Lemma mount_unmount_restores_listeners_witness :
  (7 ∉ listeners (rendered_world plain_props (Some 9)))
  ∧ 7 ∈ listeners (componentDidMount 7 (rendered_world plain_props (Some 9)))
  ∧ listeners (componentWillUnmount 7
                 (componentDidMount 7 (rendered_world plain_props (Some 9))))
    = listeners (rendered_world plain_props (Some 9))
  ∧ calls (componentWillUnmount 7
             (componentDidMount 7 (rendered_world plain_props (Some 9))))
    = calls (rendered_world plain_props (Some 9)).
Proof.
  assert (7 ∉ listeners (rendered_world plain_props (Some 9))) as Hnew
    by apply not_elem_of_nil.
  split; [exact Hnew|].
  exact (mount_unmount_restores_listeners 7 _ Hnew).
Defined.

(** X13: [componentDidMount] registers the listener once: after it the
    instance is registered, and running it a second time leaves the list
    of listeners as it is. *)
Theorem componentDidMount_registers_once (this : nat) (w : World) :
  this ∈ listeners (componentDidMount this w)
  ∧ listeners (componentDidMount this (componentDidMount this w))
    = listeners (componentDidMount this w).
Proof.
  assert (this ∈ listeners (componentDidMount this w)) as Hin.
  { rewrite componentDidMount_listeners. case_bool_decide; [done|].
    apply elem_of_app. right. apply list_elem_of_here. }
  split; [done|].
  rewrite (componentDidMount_listeners this (componentDidMount this w)).
  by rewrite bool_decide_eq_true_2.
Qed.

(** X14: starting with no listener registered, no sequence of steps,
    mounts repeated or not, ever puts a listener twice into the list. *)
Theorem listeners_never_duplicated (w : World) (ss : list step) :
  listeners w = [] → NoDup (listeners (run ss w)).
Proof.
  intros Hempty. apply run_NoDup. rewrite Hempty. constructor.
Qed.

Lemma listeners_never_duplicated_witness :
  listeners (rendered_world plain_props (Some 9)) = []
  ∧ NoDup (listeners
             (run [DidMount 7; DidMount 8; DidMount 7; WillUnmount 8;
                   DidMount 7]
                (rendered_world plain_props (Some 9)))).
Proof.
  split; [reflexivity|].
  apply (listeners_never_duplicated (rendered_world plain_props (Some 9))).
  reflexivity.
Defined.

(** X15: unmounting one instance leaves the listeners of the others
    registered. *)
Theorem unmount_keeps_other_listeners (this other : nat) (w : World) :
  other ≠ this →
  other ∈ listeners w →
  other ∈ listeners (componentWillUnmount this w).
Proof.
  intros Hne Hin.
  change (listeners (componentWillUnmount this w))
    with (remove_registration this (listeners w)).
  by apply remove_registration_keeps.
Qed.

Lemma unmount_keeps_other_listeners_witness :
  8%nat ≠ 7%nat
  ∧ 8 ∈ listeners (componentDidMount 8 mounted_world)
  ∧ 8 ∈ listeners (componentWillUnmount 7 (componentDidMount 8 mounted_world)).
Proof.
  assert (8 ∈ listeners (componentDidMount 8 mounted_world)) as Hin.
  { vm_compute. apply list_elem_of_further, list_elem_of_here. }
  split; [done|]. split; [exact Hin|].
  apply (unmount_keeps_other_listeners 7 8 _ ltac:(done) Hin).
Defined.

(** *** Key events *)

Lemma onKeyDown_other_key (l : nat) (e : KeyEvent) (w : World) :
  key e ≠ VNum enterKeyCode → _onKeyDown l e w = w.
Proof.
  intros Hk. unfold _onKeyDown, strict_eq. by rewrite bool_decide_eq_false_2.
Qed.

Lemma onKeyDown_numeric_key (l : nat) (e : KeyEvent) (w : World) :
  key e = VNum enterKeyCode →
  _onKeyDown l e w = record_call (AbstractDialog_onSubmit l None) w.
Proof.
  intros Hk. unfold _onKeyDown, strict_eq. by rewrite bool_decide_eq_true_2.
Qed.

Lemma dispatch_numeric_key_once (this : nat) (e : KeyEvent) (ls : list nat)
    (w : World) :
  key e = VNum enterKeyCode → NoDup ls → this ∈ ls →
  calls_of this (fold_left (λ w' l, _onKeyDown l e w') ls w)
  = calls_of this w ++ [AbstractDialog_onSubmit this None].
Proof.
  intros Hk Hnd. revert w.
  induction Hnd as [|l ls Hl Hnd IH]; intros w Hin.
  - by apply not_elem_of_nil in Hin.
  - simpl. apply elem_of_cons in Hin as [->|Hin].
    + rewrite dispatch_calls_of by done.
      rewrite onKeyDown_numeric_key by done.
      unfold calls_of, record_call. simpl.
      rewrite filter_app, filter_cons_True by done. by rewrite filter_nil.
    + rewrite IH by done. f_equal. apply onKeyDown_calls_of.
      intros ->. done.
Qed.

(** X16: an event whose [key] is anything but the number 13, the string
    ['13'] and every key name included, is ignored by every listener: the
    dispatch leaves the world as it is. *)
Theorem keydown_with_other_key_ignored (e : KeyEvent) (w : World) :
  key e ≠ VNum 13 → dispatchKeyDown e w = w.
Proof.
  intros Hk. unfold dispatchKeyDown.
  generalize (keydownListeners (document w)). intros ls.
  induction ls as [|l ls IH]; [done|].
  simpl. by rewrite onKeyDown_other_key.
Qed.

Lemma keydown_with_other_key_ignored_witness :
  key (mkKeyEvent (VStr "13") 13) ≠ VNum 13
  ∧ dispatchKeyDown (mkKeyEvent (VStr "13") 13) mounted_world = mounted_world.
Proof.
  split; [done|].
  apply (keydown_with_other_key_ignored (mkKeyEvent (VStr "13") 13)).
  done.
Defined.

(** X17: after [componentDidMount], in a document whose listener list has
    no duplicate, an event whose [key] is the number 13 makes the
    instance call [_onSubmit], without argument, exactly once. *)
Theorem keydown_numeric_key_submits_once (this : nat) (e : KeyEvent)
    (w : World) :
  NoDup (listeners w) →
  key e = VNum 13 →
  calls_of this (dispatchKeyDown e (componentDidMount this w))
  = calls_of this w ++ [AbstractDialog_onSubmit this None].
Proof.
  intros Hnd Hk. unfold dispatchKeyDown.
  fold (listeners (componentDidMount this w)).
  rewrite (dispatch_numeric_key_once this e _ _ Hk).
  - unfold calls_of. by rewrite componentDidMount_calls.
  - apply (exec_NoDup (DidMount this) w Hnd).
  - rewrite componentDidMount_listeners. case_bool_decide; [done|].
    apply elem_of_app. right. apply list_elem_of_here.
Qed.

Lemma keydown_numeric_key_submits_once_witness :
  NoDup (listeners mounted_world)
  ∧ key numeric_key_event = VNum 13
  ∧ calls_of 7 (dispatchKeyDown numeric_key_event
                  (componentDidMount 7 mounted_world))
    = calls_of 7 mounted_world ++ [AbstractDialog_onSubmit 7 None].
Proof.
  assert (NoDup (listeners mounted_world)) as Hnd.
  { vm_compute. apply NoDup_singleton. }
  split; [exact Hnd|]. split; [reflexivity|].
  apply (keydown_numeric_key_submits_once 7 numeric_key_event mounted_world
           Hnd eq_refl).
Defined.

(** X18: a key event never reaches the cancel handler and never touches
    the document or the instances: whatever the event, a dispatch only
    appends calls of [_onSubmit] without argument, made by registered
    listeners. *)
Theorem keydown_only_submits (e : KeyEvent) (w : World) :
  document (dispatchKeyDown e w) = document w
  ∧ instances (dispatchKeyDown e w) = instances w
  ∧ ∃ added,
      calls (dispatchKeyDown e w) = calls w ++ added
      ∧ Forall (λ c, ∃ l, l ∈ listeners w
                          ∧ c = AbstractDialog_onSubmit l None) added.
Proof.
  unfold dispatchKeyDown, listeners.
  generalize (keydownListeners (document w)) at 1 2 3 4. intros ls. revert w.
  induction ls as [|l ls IH]; intros w.
  - simpl. repeat split; try done. exists []. by rewrite app_nil_r.
  - simpl. destruct (IH (_onKeyDown l e w)) as (Hdoc & Hinst & added & Hc & Ha).
    assert (∃ pre, calls (_onKeyDown l e w) = calls w ++ pre
                   ∧ instances (_onKeyDown l e w) = instances w
                   ∧ Forall (λ c, c = AbstractDialog_onSubmit l None) pre)
      as (pre & Hpre & Hinst' & Hall).
    { unfold _onKeyDown. destruct (strict_eq _ _).
      - exists [AbstractDialog_onSubmit l None]. repeat split.
        by constructor.
      - exists []. repeat split; [by rewrite app_nil_r|constructor]. }
    split; [by rewrite Hdoc, onKeyDown_document|].
    split; [by rewrite Hinst|].
    exists (pre ++ added). split; [by rewrite Hc, Hpre, app_assoc|].
    apply Forall_app. split.
    + eapply Forall_impl; [exact Hall|]. intros c ->.
      exists l. split; [apply list_elem_of_here|done].
    + eapply Forall_impl; [exact Ha|]. intros c (l' & Hl' & ->).
      exists l'. split; [by apply list_elem_of_further|done].
Qed.

(** *** Cancelling, confirming, new properties *)

(** X19: on a dialog that is not modal a dismissal signalled by the modal
    host always reaches [super._onCancel()], once, also when
    [cancelDisabled] is set; [cancelDisabled] only removes the cancel
    control, whose click would otherwise make the same call. *)
Theorem dismissal_of_non_modal_dialog (this : nat) (w : World) (c : Component) :
  instances w !! this = Some c →
  truthy (isModal (props c)) = false →
  dismiss this w = record_call (AbstractDialog_onCancel this) w
  ∧ clickCancel this w
    = if truthy (cancelDisabled (props c)) then w
      else record_call (AbstractDialog_onCancel this) w.
Proof.
  intros Hc Hmodal.
  assert (_onCancel this w = record_call (AbstractDialog_onCancel this) w)
    as Hcancel.
  { unfold _onCancel, with_this. by rewrite Hc, Hmodal. }
  split.
  - unfold dismiss, with_this. rewrite Hc. exact Hcancel.
  - unfold clickCancel, with_this, _renderCancelButton, or_else. rewrite Hc.
    destruct (truthy (cancelDisabled (props c))) eqn:Hcd.
    + by rewrite Hcd.
    + rewrite Hmodal. exact Hcancel.
Qed.

Lemma dismissal_of_non_modal_dialog_witness :
  instances (rendered_world plain_props (Some 9)) !! 7
    = Some (mkComponent plain_props (Some 1))
  ∧ truthy (isModal (props (mkComponent plain_props (Some 1)))) = false
  ∧ dismiss 7 (rendered_world plain_props (Some 9))
    = record_call (AbstractDialog_onCancel 7)
        (rendered_world plain_props (Some 9))
  ∧ clickCancel 7 (rendered_world plain_props (Some 9))
    = if truthy (cancelDisabled (props (mkComponent plain_props (Some 1))))
      then rendered_world plain_props (Some 9)
      else record_call (AbstractDialog_onCancel 7)
             (rendered_world plain_props (Some 9)).
Proof.
  assert (instances (rendered_world plain_props (Some 9)) !! 7
          = Some (mkComponent plain_props (Some 1))) as Hc
    by (vm_compute; reflexivity).
  split; [exact Hc|]. split; [reflexivity|].
  exact (dismissal_of_non_modal_dialog 7 _ _ Hc eq_refl).
Defined.

(** X20: activating the confirm control calls [_onSubmit] with the click
    event when [okDisabled] is falsy; when it is truthy there is no
    control and nothing is called. *)
Theorem confirm_click (this : nat) (w : World) (c : Component) :
  instances w !! this = Some c →
  clickOK this w
  = if truthy (okDisabled (props c)) then w
    else record_call (AbstractDialog_onSubmit this (Some EClick)) w.
Proof.
  intros Hc. unfold clickOK, with_this, _renderOKButton. rewrite Hc.
  by destruct (truthy (okDisabled (props c))).
Qed.

Lemma confirm_click_witness :
  instances (rendered_world ok_disabled_props (Some 9)) !! 7
    = Some (mkComponent ok_disabled_props (Some 1))
  ∧ clickOK 7 (rendered_world ok_disabled_props (Some 9))
    = if truthy (okDisabled (props (mkComponent ok_disabled_props (Some 1))))
      then rendered_world ok_disabled_props (Some 9)
      else record_call (AbstractDialog_onSubmit 7 (Some EClick))
             (rendered_world ok_disabled_props (Some 9)).
Proof.
  assert (instances (rendered_world ok_disabled_props (Some 9)) !! 7
          = Some (mkComponent ok_disabled_props (Some 1))) as Hc
    by (vm_compute; reflexivity).
  split; [exact Hc|].
  exact (confirm_click 7 _ _ Hc).
Defined.

(** X21: new properties that leave [okDisabled] and [cancelDisabled] as
    they were never move the focus, even when it is outside the dialog:
    the instance gets the new properties and the document stays as it
    is. *)
Theorem receiveProps_same_flags (this : nat) (w : World) (c : Component)
    (p : Props) :
  instances w !! this = Some c →
  okDisabled p = okDisabled (props c) →
  cancelDisabled p = cancelDisabled (props c) →
  receiveProps this p w
  = mkWorld (document w)
      (<[this := mkComponent p (_dialogElement c)]> (instances w)) (calls w).
Proof.
  intros Hc Hok Hcancel.
  unfold receiveProps, with_this. rewrite Hc.
  unfold componentDidUpdate, with_this. simpl. rewrite lookup_insert_eq.
  simpl. rewrite Hok, Hcancel. unfold strict_neq, strict_eq.
  by rewrite !bool_decide_eq_true_2.
Qed.

Lemma receiveProps_same_flags_witness :
  instances (rendered_world plain_props (Some 9)) !! 7
    = Some (mkComponent plain_props (Some 1))
  ∧ okDisabled modal_props
    = okDisabled (props (mkComponent plain_props (Some 1)))
  ∧ cancelDisabled modal_props
    = cancelDisabled (props (mkComponent plain_props (Some 1)))
  ∧ receiveProps 7 modal_props (rendered_world plain_props (Some 9))
    = mkWorld (document (rendered_world plain_props (Some 9)))
        (<[7 := mkComponent modal_props
                  (_dialogElement (mkComponent plain_props (Some 1)))]>
           (instances (rendered_world plain_props (Some 9))))
        (calls (rendered_world plain_props (Some 9))).
Proof.
  assert (instances (rendered_world plain_props (Some 9)) !! 7
          = Some (mkComponent plain_props (Some 1))) as Hc
    by (vm_compute; reflexivity).
  split; [exact Hc|]. split; [reflexivity|]. split; [reflexivity|].
  exact (receiveProps_same_flags 7 _ _ modal_props Hc eq_refl eq_refl).
Defined.

(** X22: the footer holds the cancel control, then the confirm control.
    The cancel control is missing exactly when [cancelDisabled] or
    [isModal] is truthy, the confirm control exactly when [okDisabled]
    is; a control that is rendered carries the id [updateButtonFocus]
    looks for and its handler, and a rendered confirm control is never
    disabled. *)
Theorem footer_controls (c : Component) :
  ∃ cancel ok,
    buttonGroup (_renderFooter c) = [cancel; ok]
    ∧ (cancel = None ↔ truthy (cancelDisabled (props c)) = true
                       ∨ truthy (isModal (props c)) = true)
    ∧ (ok = None ↔ truthy (okDisabled (props c)) = true)
    ∧ (∀ b, cancel = Some b →
            id b = CANCEL_BUTTON_ID ∧ onClick b = This_onCancel)
    ∧ (∀ b, ok = Some b →
            id b = OK_BUTTON_ID ∧ onClick b = This_onSubmit
            ∧ ∃ v, isDisabled b = Some v ∧ truthy v = false).
Proof.
  exists (_renderCancelButton c), (_renderOKButton c).
  split; [reflexivity|].
  unfold _renderCancelButton, _renderOKButton, or_else.
  split; [|split; [|split]].
  - destruct (truthy (cancelDisabled (props c))) eqn:Hcd.
    + rewrite Hcd. split; [by left|done].
    + destruct (truthy (isModal (props c))) eqn:Hm.
      * split; [by right|done].
      * split; [done|]. by intros [?|?].
  - by destruct (truthy (okDisabled (props c))).
  - intros b Hb. destruct (truthy _); [done|]. by injection Hb as <-.
  - intros b Hb.
    destruct (truthy (okDisabled (props c))) eqn:Hok; [done|].
    injection Hb as <-. repeat split.
    exists (okDisabled (props c)). by split.
Qed.

End DialogFacts.
